(** * goagen/gen_app: the application code generator

    A shallow embedding of [goagen/gen_app/generator.go].  The generator is
    sequential imperative code: it owns a [Generator] value whose [genfiles]
    field it mutates, it calls into the operating system ([os.RemoveAll],
    [os.MkdirAll]) and into the artifact writers of the same package, and it
    returns Go [error] values or panics.  The embedding is a state monad over
    the generator, a file system and the log of the calls made to the
    collaborators; an outcome is either a normal return or a panic.

    What is embedded is the method [Generate] of [Generator] with the
    methods it calls.  The package-level [Generate], which parses the
    command line and builds the [Generator], is not.  The goroutine started
    by [go utils.Catch] is a logged call: what it does when the process is
    interrupted is not part of a run. *)

From Stdlib Require Import String Ascii ZArith List.
From stdpp Require Import base option list sorting gmap strings fin_maps.

Local Open Scope string_scope.
Local Open Scope list_scope.
Local Open Scope Z_scope.

(** ** Go strings: byte-wise ordering, [sort.Strings], [filepath.Join] *)

(** [sort.Strings]: the slice rearranged in increasing byte-wise order.  The
    order is total and antisymmetric, so the result does not depend on the
    sorting algorithm. *)
Definition sort_Strings (l : list string) : list string :=
  merge_sort String.le l.

(** [filepath.Join] of a directory and a file name, for paths that are
    already clean: an empty element is ignored, the others are joined with
    the separator. *)
Definition filepath_Join (dir file : string) : string :=
  match dir with
  | EmptyString => file
  | _ => dir +:+ "/" +:+ file
  end.

(** ** The file system *)

Inductive Node :=
  | Dir
  | File (content : string).

Abbreviation FS := (gmap string Node).

(** [under d p]: [p] is the directory [d] or lies below it.  Nothing lies
    under the empty path: [os.RemoveAll] of the empty path removes nothing. *)
Definition under (d p : string) : bool :=
  match d with
  | EmptyString => false
  | _ => String.eqb p d || String.prefix (d +:+ "/") p
  end.

(** [os.RemoveAll]: removes the path and any children it contains.  The
    generator ignores the error it may return; here the removal always
    succeeds. *)
Definition os_RemoveAll (d : string) (fs : FS) : FS :=
  filter (λ kv, under d kv.1 = false) fs.

(** The output directory is absent: neither it nor anything below it exists. *)
Definition absent (d : string) (fs : FS) : Prop :=
  ∀ p, under d p = true → fs !! p = None.

Lemma os_RemoveAll_absent d fs : absent d (os_RemoveAll d fs).
Proof.
  intros p Hp. unfold os_RemoveAll.
  apply map_lookup_filter_None. right. intros x _; simpl. by rewrite Hp.
Qed.

Lemma os_RemoveAll_other d fs p :
  under d p = false → os_RemoveAll d fs !! p = fs !! p.
Proof.
  intros Hp. unfold os_RemoveAll.
  destruct (fs !! p) as [x|] eqn:Hx.
  - by apply map_lookup_filter_Some.
  - apply map_lookup_filter_None. by left.
Qed.

Lemma string_app_cons x (a b : string) : String x a +:+ b = String x (a +:+ b).
Proof. reflexivity. Qed.
Lemma string_app_assoc (a b c : string) : (a +:+ b +:+ c) = ((a +:+ b) +:+ c).
Proof. induction a as [|x a IH]; [done|]. rewrite !string_app_cons. by f_equal. Qed.
Lemma string_prefix_app (a b : string) : String.prefix a (a +:+ b) = true.
Proof.
  induction a as [|c a IH]; [by destruct b|].
  rewrite string_app_cons. simpl.
  destruct (ascii_dec c c); [exact IH|done].
Qed.

Lemma under_Join d f : d ≠ EmptyString → under d (filepath_Join d f) = true.
Proof.
  destruct d as [|c d]; [done|]. intros _.
  unfold under, filepath_Join.
  apply orb_true_iff. right.
  rewrite string_app_assoc. apply string_prefix_app.
Qed.

Lemma under_self d : d ≠ EmptyString → under d d = true.
Proof.
  destruct d as [|c d]; [done|]. intros _. unfold under.
  by rewrite String.eqb_refl.
Qed.

(** ** The design IR (package [design])

    The type declarations of package [design] are not part of the generator
    file; their shape is the one its callers build (the composite literals of
    [generator_test.go]) and the one the generator reads.  Go pointers to
    definitions are values here; a pointer the generator tests against [nil]
    is an [option]. *)

(** A Go [error] value, identified with its message. *)
Definition error := string.

Inductive Primitive :=
  | Boolean | Integer | Number | String_ | DateTime | UUID | Any.

Inductive DataType :=
  | PrimitiveT (kind : Primitive)
  | Array (ElemType : AttributeDefinition)
  | Object (fields : list (string * AttributeDefinition))
  | Hash (KeyType ElemType : AttributeDefinition)
  | UserType (TypeName : string) (definition : AttributeDefinition)
with AttributeDefinition :=
  | Attribute (Type_ : DataType) (Description : string) (Required : list string).

Definition AttributeDefinition_Type (a : AttributeDefinition) : DataType :=
  match a with Attribute t _ _ => t end.

Module UserTypeDefinition.
Record t := mk {
  AttributeDefinition : AttributeDefinition;
  TypeName : string }.
End UserTypeDefinition.

Module MediaTypeDefinition.
Record t := mk {
  UserTypeDefinition : UserTypeDefinition.t;
  Identifier : string;
  Views : gmap string AttributeDefinition }.
(** [mt.Type]: the field promoted from the embedded attribute. *)
Definition Type_ (mt : t) : DataType :=
  AttributeDefinition_Type
    (UserTypeDefinition.AttributeDefinition (UserTypeDefinition mt)).
End MediaTypeDefinition.

Module RouteDefinition.
Record t := mk { Verb : string; Path : string }.
End RouteDefinition.

Module ResponseDefinition.
Record t := mk {
  Name : string;
  Status : Z;
  Description : string;
  MediaType : string }.
End ResponseDefinition.

(** Modelled from the spec: a security scheme has a name, a kind and
    scheme-specific parameters; an action's security requirement names a
    scheme and its scopes. *)
Module SecuritySchemeDefinition.
Record t := mk { SchemeName : string; Kind : string; Parameters : list string }.
End SecuritySchemeDefinition.

Module SecurityDefinition.
Record t := mk { Scheme : string; Scopes : list string }.
End SecurityDefinition.

Module FileServerDefinition.
Record t := mk { FilePath : string; RequestPath : string }.
End FileServerDefinition.

Module CORSDefinition.
Record t := mk { Origin : string }.
End CORSDefinition.

(** Modelled from the spec: a declared content type binds MIME types to a
    (package, function) serializer. *)
Module EncodingDefinition.
Record t := mk {
  MIMETypes : list string;
  PackagePath : string;
  Function : string }.
End EncodingDefinition.

Module ActionDefinition.
(** [Parent] is a back pointer to the owning resource.  The generator reads
    only [a.Parent.Name] through it, so the pointer is kept as a handle
    carrying that name. *)
Record t := mk {
  Name : string;
  Description : string;
  Parent_Name : string;
  Routes : list RouteDefinition.t;
  Responses : gmap string ResponseDefinition.t;
  Params : option AttributeDefinition;
  Payload : option UserTypeDefinition.t;
  PayloadOptional : bool;
  Headers : option AttributeDefinition;
  Security : option SecurityDefinition.t }.
End ActionDefinition.

Module ResourceDefinition.
Record t := mk {
  Name : string;
  BasePath : string;
  Description : string;
  MediaType : string;
  CanonicalActionName : string;
  Actions : gmap string ActionDefinition.t;
  Headers : option AttributeDefinition;
  FileServers : list FileServerDefinition.t }.
End ResourceDefinition.

Module APIDefinition.
Record t := mk {
  Name : string;
  Title : string;
  Description : string;
  Resources : gmap string ResourceDefinition.t;
  MediaTypes : gmap string MediaTypeDefinition.t;
  Types : gmap string UserTypeDefinition.t;
  SecuritySchemes : list SecuritySchemeDefinition.t;
  Produces : list EncodingDefinition.t;
  Consumes : list EncodingDefinition.t }.
End APIDefinition.

(** ** Template data (packages [codegen] and [genapp]) *)

Module ImportSpec.
Record t := mk { Name : string; Path : string }.
End ImportSpec.

Definition SimpleImport (path : string) : ImportSpec.t :=
  ImportSpec.mk "" path.
Definition NewImport (name path : string) : ImportSpec.t :=
  ImportSpec.mk name path.

Module EncoderTemplateData.
Record t := mk {
  PackagePath : string;
  Function : string;
  MIMETypes : list string }.
End EncoderTemplateData.

Module ContextTemplateData.
Record t := mk {
  Name : string;
  ResourceName : string;
  ActionName : string;
  Payload : option UserTypeDefinition.t;
  Params : option AttributeDefinition;
  Headers : option AttributeDefinition;
  Routes : list RouteDefinition.t;
  Responses : gmap string ResponseDefinition.t;
  API : APIDefinition.t;
  DefaultPkg : string;
  Security : option SecurityDefinition.t }.
End ContextTemplateData.

(** One entry of [ControllerTemplateData.Actions]: the
    [map[string]interface{}] literal of [generateControllers], with its fixed
    keys as fields. *)
Module ControllerAction.
Record t := mk {
  Name : string;
  Routes : list RouteDefinition.t;
  Context : string;
  Unmarshal : string;
  Payload : option UserTypeDefinition.t;
  PayloadOptional : bool;
  Security : option SecurityDefinition.t }.
End ControllerAction.

Module ControllerTemplateData.
Record t := mk {
  API : APIDefinition.t;
  Resource : string;
  PreflightPaths : list string;
  FileServers : list FileServerDefinition.t;
  Actions : list ControllerAction.t;
  Encoders : list EncoderTemplateData.t;
  Decoders : list EncoderTemplateData.t;
  Origins : list CORSDefinition.t }.
End ControllerTemplateData.

Module ResourceData.
Record t := mk {
  Name : string;
  Identifier : string;
  Description : string;
  Type_ : option MediaTypeDefinition.t;
  CanonicalTemplate : string;
  CanonicalParams : list string }.
End ResourceData.

(** ** Collaborators

    The generator calls functions of packages [design] and [codegen], and
    [BuildEncoders] of its own package, whose code is in other files.  They
    are pure with respect to the generator's state and are taken as an
    interface.  The [Iterate*] methods call the iterator on each definition in
    some order and stop at the first error; the interface gives the order of
    the visit. *)
Class Design := {
  APIDefinition_Context : APIDefinition.t → string;
  IterateResources_order : APIDefinition.t → list ResourceDefinition.t;
  IterateActions_order : ResourceDefinition.t → list ActionDefinition.t;
  IterateMediaTypes_order : APIDefinition.t → list MediaTypeDefinition.t;
  IterateUserTypes_order : APIDefinition.t → list UserTypeDefinition.t;
  MediaTypeWithIdentifier :
    APIDefinition.t → string → option MediaTypeDefinition.t;
  Merge :
    option AttributeDefinition → option AttributeDefinition →
    option AttributeDefinition;
  AllParams : ActionDefinition.t → option AttributeDefinition;
  ToObject : DataType → list (string * AttributeDefinition);
  IsObject : DataType → bool;
  IsArray : DataType → bool;
  IsBuiltIn : MediaTypeDefinition.t → bool;
  PreflightPaths : ResourceDefinition.t → list string;
  AllOrigins : ResourceDefinition.t → list CORSDefinition.t;
  Goify : string → bool → string;
  CanonicalTemplate : ResourceDefinition.t → string;
  CanonicalParams : ResourceDefinition.t → list string;
  BuildEncoders :
    list EncodingDefinition.t → bool →
    list EncoderTemplateData.t * option error }.

(** The order in which a [range] statement visits a Go map is chosen by the
    runtime: any enumeration of the map's entries. *)
Class GoRuntime := {
  range_map : ∀ {V : Type}, gmap string V → list (string * V);
  range_map_perm : ∀ (V : Type) (m : gmap string V),
    range_map m ≡ₚ map_to_list m }.

(** ** The generator and its calls to the outside *)

Record Generator := mkGenerator {
  outDir : string;
  target : string;
  notest : bool;
  genfiles : list string }.

(** The six source-file writers of the package. *)
Inductive Writer :=
  | ContextsWriter
  | ControllersWriter
  | SecurityWriter
  | ResourcesWriter
  | MediaTypesWriter
  | UserTypesWriter.

#[global] Instance Writer_eq_dec : EqDecision Writer.
Proof. solve_decision. Defined.

(** The methods called on a writer; [New] is its constructor. *)
Inductive WriterCall :=
  | New
  | WriteHeader (title pack : string) (imports : list ImportSpec.t)
  | WriteInitService (encoders decoders : list EncoderTemplateData.t)
  | ExecuteContext (data : ContextTemplateData.t)
  | ExecuteControllers (data : list ControllerTemplateData.t)
  | ExecuteSecurity (schemes : list SecuritySchemeDefinition.t)
  | ExecuteResource (data : ResourceData.t)
  | ExecuteMediaType (mt : MediaTypeDefinition.t)
  | ExecuteUserType (ut : UserTypeDefinition.t)
  | FormatCode.

Inductive Call :=
  | utils_Catch
  | RemoveAll (path : string)
  | MkdirAll (path : string)
  | WriterOp (w : Writer) (filename : string) (c : WriterCall)
  | ResourceTest (api : APIDefinition.t).

(** What the calls do is outside the generator: whether [os.MkdirAll] fails,
    what a writer does to the file system and whether it fails, and what the
    test generator (another file of the package) writes.  A writer is
    identified by its kind and the file it was opened on.  The test generator
    reports the files it appends to [genfiles]. *)
Class Platform := {
  MkdirAll_error : string → FS → option error;
  writer_call : Writer → string → WriterCall → FS → FS * option error;
  resource_test :
    APIDefinition.t → Generator → FS → FS * list string * option error }.

(** [os.MkdirAll]: on failure nothing is created. *)
Definition os_MkdirAll `{Platform} (d : string) (fs : FS) : FS * option error :=
  match MkdirAll_error d fs with
  | Some e => (fs, Some e)
  | None => (<[d := Dir]> fs, None)
  end.

(** The state of a run: the generator, the file system, the package-level
    variable [design.Design], and the log of the calls made so far with the
    error each returned. *)
Record State := mkState {
  gen : Generator;
  fs : FS;
  design_Design : option APIDefinition.t;
  trace : list (Call * option error) }.

Inductive Outcome (A : Type) :=
  | Returned (a : A)
  | Panicked (e : error).
Arguments Returned {A} a.
Arguments Panicked {A} e.

Definition M (A : Type) : Type := State → Outcome A * State.

#[global] Instance M_ret : MRet M := λ A a s, (Returned a, s).
#[global] Instance M_bind : MBind M := λ A B k m s,
  match m s with
  | (Returned a, s') => k a s'
  | (Panicked e, s') => (Panicked e, s')
  end.

Definition panic {A} (e : error) : M A := λ s, (Panicked e, s).

Definition get_g : M Generator := λ s, (Returned (gen s), s).

Definition set_genfiles (l : list string) : M unit := λ s,
  (Returned (),
   mkState (mkGenerator (outDir (gen s)) (target (gen s)) (notest (gen s)) l)
           (fs s) (design_Design s) (trace s)).

(** [g.genfiles = append(g.genfiles, f)] *)
Definition append_genfiles (l : list string) : M unit := λ s,
  set_genfiles (genfiles (gen s) ++ l) s.

Definition get_Design : M (option APIDefinition.t) := λ s,
  (Returned (design_Design s), s).

Definition log (c : Call) (r : option error) (fs' : FS) : M (option error) :=
  λ s, (Returned r,
        mkState (gen s) fs' (design_Design s) (trace s ++ [(c, r)])).

Section Generator.
Context `{D : Design, R : GoRuntime, P : Platform}.

Definition go_utils_Catch : M unit := λ s,
  (Returned (),
   mkState (gen s) (fs s) (design_Design s) (trace s ++ [(utils_Catch, None)])).

Definition call_RemoveAll (d : string) : M unit := λ s,
  (Returned (),
   mkState (gen s) (os_RemoveAll d (fs s)) (design_Design s)
           (trace s ++ [(RemoveAll d, None)])).

Definition call_MkdirAll (d : string) : M (option error) := λ s,
  let '(fs', r) := os_MkdirAll d (fs s) in log (MkdirAll d) r fs' s.

Definition call_writer (w : Writer) (filename : string) (c : WriterCall)
  : M (option error) := λ s,
  let '(fs', r) := writer_call w filename c (fs s) in
  log (WriterOp w filename c) r fs' s.

(** [wr, err := NewXWriter(file); if err != nil { panic(err) }] *)
Definition NewWriter (w : Writer) (filename : string) : M unit :=
  err ← call_writer w filename New;
  match err with
  | Some e => panic e
  | None => mret ()
  end.

(** An [Iterate*] method: the iterator is called on each definition in
    turn; the first error stops the iteration and is returned. *)
Fixpoint iterate {A} (it : A → M (option error)) (l : list A)
  : M (option error) :=
  match l with
  | [] => mret None
  | x :: l' =>
      err ← it x;
      match err with
      | Some e => mret (Some e)
      | None => iterate it l'
      end
  end.

(** [g.Cleanup] *)
Definition Cleanup : M unit :=
  g ← get_g;
  if decide (length (genfiles g) = 0%nat) then mret ()
  else call_RemoveAll (outDir g);; set_genfiles [].

(** [if err := m; err != nil { return ret_err(err) }; k] *)
Definition check {A} (m : M (option error)) (ret_err : error → A) (k : M A)
  : M A :=
  err ← m;
  match err with
  | Some e => mret (ret_err e)
  | None => k
  end.

(** *** generateContexts *)

(** The loop building [non101]: the responses are visited in the order the
    runtime picks. *)
Definition non101 (responses : gmap string ResponseDefinition.t)
  : gmap string ResponseDefinition.t :=
  foldl (λ acc kv,
           if decide (ResponseDefinition.Status kv.2 ≠ 101)
           then <[kv.1 := kv.2]> acc else acc)
        ∅ (range_map responses).

(** [if x != nil && len(x.Type.ToObject()) == 0 { x = nil }] *)
Definition nil_if_empty (x : option AttributeDefinition)
  : option AttributeDefinition :=
  match x with
  | Some att =>
      if decide (length (ToObject (AttributeDefinition_Type att)) = 0%nat)
      then None else Some att
  | None => None
  end.

Definition ctxName (a : ActionDefinition.t) : string :=
  (Goify (ActionDefinition.Name a) true
     +:+ Goify (ActionDefinition.Parent_Name a) true) +:+ "Context".

(** The [ContextTemplateData] built for action [a] of resource [r]. *)
Definition ctxData (DefaultPkg : string) (api : APIDefinition.t)
    (r : ResourceDefinition.t) (a : ActionDefinition.t)
  : ContextTemplateData.t :=
  let headers :=
    nil_if_empty
      (Merge (ResourceDefinition.Headers r) (ActionDefinition.Headers a)) in
  let params := nil_if_empty (AllParams a) in
  {| ContextTemplateData.Name := ctxName a;
     ContextTemplateData.ResourceName := ResourceDefinition.Name r;
     ContextTemplateData.ActionName := ActionDefinition.Name a;
     ContextTemplateData.Payload := ActionDefinition.Payload a;
     ContextTemplateData.Params := params;
     ContextTemplateData.Headers := headers;
     ContextTemplateData.Routes := ActionDefinition.Routes a;
     ContextTemplateData.Responses := non101 (ActionDefinition.Responses a);
     ContextTemplateData.API := api;
     ContextTemplateData.DefaultPkg := DefaultPkg;
     ContextTemplateData.Security := ActionDefinition.Security a |}.

Definition generateContexts (api : APIDefinition.t) : M (option error) :=
  g ← get_g;
  let ctxFile := filepath_Join (outDir g) "contexts.go" in
  NewWriter ContextsWriter ctxFile;;
  let title := APIDefinition_Context api +:+ ": Application Contexts" in
  let imports :=
    [ SimpleImport "fmt";
      SimpleImport "golang.org/x/net/context";
      SimpleImport "strconv";
      SimpleImport "strings";
      SimpleImport "time";
      SimpleImport "github.com/goadesign/goa";
      NewImport "uuid" "github.com/satori/go.uuid" ] in
  append_genfiles [ctxFile];;
  call_writer ContextsWriter ctxFile (WriteHeader title (target g) imports);;
  err ← iterate (λ r,
           iterate (λ a,
              call_writer ContextsWriter ctxFile
                (ExecuteContext (ctxData (target g) api r a)))
             (IterateActions_order r))
         (IterateResources_order api);
  match err with
  | Some e => mret (Some e)
  | None => call_writer ContextsWriter ctxFile FormatCode
  end.

(** *** generateControllers *)

(** [encoderImports]: the set of package paths of the encoders and of the
    decoders, a [map[string]bool]. *)
Definition encoderImports (encoders decoders : list EncoderTemplateData.t)
  : gmap string bool :=
  let add (m : gmap string bool) (data : EncoderTemplateData.t) :=
    <[EncoderTemplateData.PackagePath data := true]> m in
  foldl add (foldl add ∅ encoders) decoders.

(** [packagePaths] after [sort.Strings]: the keys of [encoderImports], in
    the order the runtime visits them, without the goa package itself, then
    sorted. *)
Definition packagePaths (encoders decoders : list EncoderTemplateData.t)
  : list string :=
  sort_Strings
    (foldl (λ acc kv,
              if decide (kv.1 ≠ "github.com/goadesign/goa")
              then acc ++ [kv.1] else acc)
           [] (range_map (encoderImports encoders decoders))).

Definition controllersImports (encoders decoders : list EncoderTemplateData.t)
  : list ImportSpec.t :=
  foldl (λ imports packagePath, imports ++ [SimpleImport packagePath])
    [ SimpleImport "net/http";
      SimpleImport "fmt";
      SimpleImport "golang.org/x/net/context";
      SimpleImport "github.com/goadesign/goa";
      SimpleImport "github.com/goadesign/goa/cors" ]
    (packagePaths encoders decoders).

(** The entry appended to [data.Actions] for action [a] of resource [r]. *)
Definition controllerAction (r : ResourceDefinition.t) (a : ActionDefinition.t)
  : ControllerAction.t :=
  let context :=
    Goify (ActionDefinition.Name a) true
      +:+ Goify (ResourceDefinition.Name r) true +:+ "Context" in
  let unmarshal :=
    "unmarshal" +:+ Goify (ActionDefinition.Name a) true
      +:+ Goify (ResourceDefinition.Name r) true +:+ "Payload" in
  {| ControllerAction.Name := Goify (ActionDefinition.Name a) true;
     ControllerAction.Routes := ActionDefinition.Routes a;
     ControllerAction.Context := context;
     ControllerAction.Unmarshal := unmarshal;
     ControllerAction.Payload := ActionDefinition.Payload a;
     ControllerAction.PayloadOptional := ActionDefinition.PayloadOptional a;
     ControllerAction.Security := ActionDefinition.Security a |}.

(** The iteration building [controllersData].  Its iterators make no call
    and always return [nil], so the iteration is a fold over the visited
    definitions. *)
Definition controllersData (api : APIDefinition.t)
    (encoders decoders : list EncoderTemplateData.t)
  : list ControllerTemplateData.t :=
  foldl (λ acc r,
           let actions :=
             foldl (λ actions a, actions ++ [controllerAction r a])
                   [] (IterateActions_order r) in
           if decide (0 < length actions ∨
                      0 < length (ResourceDefinition.FileServers r))%nat
           then acc ++
             [ {| ControllerTemplateData.API := api;
                  ControllerTemplateData.Resource :=
                    Goify (ResourceDefinition.Name r) true;
                  ControllerTemplateData.PreflightPaths := PreflightPaths r;
                  ControllerTemplateData.FileServers :=
                    ResourceDefinition.FileServers r;
                  ControllerTemplateData.Actions := actions;
                  ControllerTemplateData.Encoders := encoders;
                  ControllerTemplateData.Decoders := decoders;
                  ControllerTemplateData.Origins := AllOrigins r |} ]
           else acc)
        [] (IterateResources_order api).

Definition generateControllers (api : APIDefinition.t) : M (option error) :=
  g ← get_g;
  let ctlFile := filepath_Join (outDir g) "controllers.go" in
  NewWriter ControllersWriter ctlFile;;
  let title := APIDefinition_Context api +:+ ": Application Controllers" in
  let '(encoders, err) := BuildEncoders (APIDefinition.Produces api) true in
  match err with
  | Some e => mret (Some e)
  | None =>
  let '(decoders, err) := BuildEncoders (APIDefinition.Consumes api) false in
  match err with
  | Some e => mret (Some e)
  | None =>
  let imports := controllersImports encoders decoders in
  call_writer ControllersWriter ctlFile (WriteHeader title (target g) imports);;
  call_writer ControllersWriter ctlFile (WriteInitService encoders decoders);;
  let data := controllersData api encoders decoders in
  append_genfiles [ctlFile];;
  check (call_writer ControllersWriter ctlFile (ExecuteControllers data)) Some
    (call_writer ControllersWriter ctlFile FormatCode)
  end end.

(** *** generateSecurity *)

Definition generateSecurity (api : APIDefinition.t) : M (option error) :=
  if decide (length (APIDefinition.SecuritySchemes api) = 0%nat)
  then mret None
  else
    g ← get_g;
    let secFile := filepath_Join (outDir g) "security.go" in
    NewWriter SecurityWriter secFile;;
    let title := APIDefinition_Context api +:+ ": Application Security" in
    let imports :=
      [ SimpleImport "net/http";
        SimpleImport "errors";
        SimpleImport "golang.org/x/net/context";
        SimpleImport "github.com/goadesign/goa" ] in
    call_writer SecurityWriter secFile (WriteHeader title (target g) imports);;
    append_genfiles [secFile];;
    design ← get_Design;
    match design with
    | None => panic "invalid memory address or nil pointer dereference"
    | Some design =>
        check (call_writer SecurityWriter secFile
                 (ExecuteSecurity (APIDefinition.SecuritySchemes design)))
              Some
          (call_writer SecurityWriter secFile FormatCode)
    end.

(** *** generateHrefs *)

Definition resourceData (api : APIDefinition.t) (r : ResourceDefinition.t)
  : ResourceData.t :=
  let m := MediaTypeWithIdentifier api (ResourceDefinition.MediaType r) in
  let identifier :=
    match m with
    | Some m => MediaTypeDefinition.Identifier m
    | None => "text/plain"
    end in
  {| ResourceData.Name := Goify (ResourceDefinition.Name r) true;
     ResourceData.Identifier := identifier;
     ResourceData.Description := ResourceDefinition.Description r;
     ResourceData.Type_ := m;
     ResourceData.CanonicalTemplate := CanonicalTemplate r;
     ResourceData.CanonicalParams := CanonicalParams r |}.

Definition generateHrefs (api : APIDefinition.t) : M (option error) :=
  g ← get_g;
  let hrefFile := filepath_Join (outDir g) "hrefs.go" in
  NewWriter ResourcesWriter hrefFile;;
  let title :=
    APIDefinition_Context api +:+ ": Application Resource Href Factories" in
  let imports := [ SimpleImport "fmt" ] in
  call_writer ResourcesWriter hrefFile (WriteHeader title (target g) imports);;
  err ← iterate (λ r,
           call_writer ResourcesWriter hrefFile
             (ExecuteResource (resourceData api r)))
         (IterateResources_order api);
  append_genfiles [hrefFile];;
  match err with
  | Some e => mret (Some e)
  | None => call_writer ResourcesWriter hrefFile FormatCode
  end.

(** *** generateMediaTypes *)

(** The iterator of [generateMediaTypes]. *)
Definition mediaTypeIterator (mtFile : string) (mt : MediaTypeDefinition.t)
  : M (option error) :=
  if IsBuiltIn mt then mret None
  else if IsObject (MediaTypeDefinition.Type_ mt)
          || IsArray (MediaTypeDefinition.Type_ mt)
  then call_writer MediaTypesWriter mtFile (ExecuteMediaType mt)
  else mret None.

Definition generateMediaTypes (api : APIDefinition.t) : M (option error) :=
  g ← get_g;
  let mtFile := filepath_Join (outDir g) "media_types.go" in
  NewWriter MediaTypesWriter mtFile;;
  let title := APIDefinition_Context api +:+ ": Application Media Types" in
  let imports :=
    [ SimpleImport "github.com/goadesign/goa";
      SimpleImport "fmt";
      SimpleImport "time";
      NewImport "uuid" "github.com/satori/go.uuid" ] in
  call_writer MediaTypesWriter mtFile (WriteHeader title (target g) imports);;
  err ← iterate (mediaTypeIterator mtFile) (IterateMediaTypes_order api);
  append_genfiles [mtFile];;
  match err with
  | Some e => mret (Some e)
  | None => call_writer MediaTypesWriter mtFile FormatCode
  end.

(** *** generateUserTypes *)

Definition generateUserTypes (api : APIDefinition.t) : M (option error) :=
  g ← get_g;
  let utFile := filepath_Join (outDir g) "user_types.go" in
  NewWriter UserTypesWriter utFile;;
  let title := APIDefinition_Context api +:+ ": Application User Types" in
  let imports :=
    [ SimpleImport "github.com/goadesign/goa";
      SimpleImport "fmt";
      SimpleImport "time" ] in
  call_writer UserTypesWriter utFile (WriteHeader title (target g) imports);;
  err ← iterate (λ t, call_writer UserTypesWriter utFile (ExecuteUserType t))
         (IterateUserTypes_order api);
  append_genfiles [utFile];;
  match err with
  | Some e => mret (Some e)
  | None => call_writer UserTypesWriter utFile FormatCode
  end.

(** *** generateResourceTest

    The method is defined in another file of the package.  It is one call
    to the outside, which may write files, appends the files it reports to
    [genfiles], and returns an error or [nil]. *)
Definition generateResourceTest (api : APIDefinition.t) : M (option error) :=
  λ s,
    let '(fs', files, r) := resource_test api (gen s) (fs s) in
    (files' ← append_genfiles files; log (ResourceTest api) r fs') s.

(** *** Generate *)

(** A [defer] statement: [deferred] runs when [body] returns or panics.  It
    reads the named result [err]: the value being returned, or [nil] when
    the body panicked before any [return]. *)
Definition defer_ {A} (deferred : option error → M unit)
    (body : M (A * option error)) : M (A * option error) := λ s,
  match body s with
  | (Returned r, s') =>
      match deferred r.2 s' with
      | (Returned _, s'') => (Returned r, s'')
      | (Panicked e, s'') => (Panicked e, s'')
      end
  | (Panicked e, s') => (Panicked e, (deferred None s').2)
  end.

Definition Generate (api : option APIDefinition.t)
  : M (list string * option error) :=
  match api with
  | None =>
      mret ([], Some "missing API definition, make sure design is properly initialized")
  | Some api =>
      go_utils_Catch;;
      defer_ (λ err, match err with Some _ => Cleanup | None => mret () end)
        (g ← get_g;
         call_RemoveAll (outDir g);;
         let fail (e : error) : list string * option error := ([], Some e) in
         check (call_MkdirAll (outDir g)) fail (
         set_genfiles [outDir g];;
         check (generateContexts api) fail (
         check (generateControllers api) fail (
         check (generateSecurity api) fail (
         check (generateHrefs api) fail (
         check (generateMediaTypes api) fail (
         check (generateUserTypes api) fail (
         check (if notest g then mret None else generateResourceTest api) fail (
         g ← get_g;
         mret (genfiles g, None))))))))))
  end.
End Generator.

(** ** Collaborators described by the specification only *)

(** The code of [codegen.Goify] and of [BuildEncoders] is in other files.
    The two definitions below follow the specification's description of
    them. *)

Definition is_lower (c : ascii) : bool :=
  let n := nat_of_ascii c in (97 <=? n)%nat && (n <=? 122)%nat.
Definition is_upper (c : ascii) : bool :=
  let n := nat_of_ascii c in (65 <=? n)%nat && (n <=? 90)%nat.
Definition is_digit (c : ascii) : bool :=
  let n := nat_of_ascii c in (48 <=? n)%nat && (n <=? 57)%nat.
Definition is_alnum (c : ascii) : bool := is_lower c || is_upper c || is_digit c.
Definition to_upper (c : ascii) : ascii :=
  if is_lower c then ascii_of_nat (nat_of_ascii c - 32) else c.
Definition to_lower (c : ascii) : ascii :=
  if is_upper c then ascii_of_nat (nat_of_ascii c + 32) else c.

(** The word in [cur] (its characters in reverse), if any. *)
Definition flush_word (cur : string) : list string :=
  match cur with
  | EmptyString => []
  | _ => [String.rev cur]
  end.

(** The words of a free-form name: a word ends at a character that is
    neither a letter nor a digit, which is dropped, and before an upper-case
    letter that follows a lower-case letter or a digit. *)
Fixpoint split_words (cur : string) (prev : ascii) (s : string) : list string :=
  match s with
  | EmptyString => flush_word cur
  | String c s' =>
      if negb (is_alnum c) then flush_word cur ++ split_words "" c s'
      else if is_upper c && (is_lower prev || is_digit prev)
      then flush_word cur ++ split_words (String c "") c s'
      else split_words (String c cur) c s'
  end.

Definition capitalize (w : string) : string :=
  match w with
  | EmptyString => ""
  | String c w' => String (to_upper c) w'
  end.

Definition uncapitalize (w : string) : string :=
  match w with
  | EmptyString => ""
  | String c w' => String (to_lower c) w'
  end.

Fixpoint concat_words (ws : list string) : string :=
  match ws with
  | [] => ""
  | w :: ws' => w +:+ concat_words ws'
  end.

(** Modelled from the spec: [codegen.Goify], whose code is not in the
    generator file, is "a deterministic casing transform (word-boundary-aware
    capitalization)" under which "get-widget", "get_widget" and "GetWidget"
    normalize identically: the name is cut into words, each word is
    capitalized and the words are joined.  The second argument asks for an
    upper-case first character. *)
Definition Goify_model (name : string) (firstUpper : bool) : string :=
  let camel := concat_words (capitalize <$> split_words "" " "%char name) in
  if firstUpper then camel else uncapitalize camel.

(** The (package, function) binding of a content type. *)
Definition binding_of (d : EncodingDefinition.t) : string * string :=
  (EncodingDefinition.PackagePath d, EncodingDefinition.Function d).


(** Bindings are ordered by package, then by function. *)
Definition binding_le (a b : string * string) : Prop :=
  if decide (a.1 = b.1) then String.le a.2 b.2 else String.le a.1 b.1.

#[global] Instance binding_le_dec : RelDecision binding_le.
Proof. intros a b. unfold binding_le. destruct (decide (a.1 = b.1)); apply _. Defined.

(** Modelled from the spec: [BuildEncoders], whose code is not in the
    generator file, "maps the API's declared content types (produced/consumed
    MIME types) to a minimal ordered list of (package, function) bindings"
    and "deduplicates and sorts for deterministic output": one entry per
    distinct binding, the entries sorted, each with the sorted MIME types
    declared for its binding. *)
Definition BuildEncoders_model (info : list EncodingDefinition.t)
    (encoder : bool) : list EncoderTemplateData.t * option error :=
  let bindings := merge_sort binding_le (remove_dups (binding_of <$> info)) in
  ((λ b,
      EncoderTemplateData.mk b.1 b.2
        (sort_Strings
           (remove_dups
              (mjoin (EncodingDefinition.MIMETypes
                        <$> filter (λ d, binding_of d = b) info)))))
     <$> bindings,
   None).



Example Goify_model_dash : Goify_model "get-widget" true = "GetWidget".
Proof. reflexivity. Qed.
Example Goify_model_underscore : Goify_model "get_widget" true = "GetWidget".
Proof. reflexivity. Qed.
Example Goify_model_camel : Goify_model "GetWidget" true = "GetWidget".
Proof. reflexivity. Qed.

(** ** A sample design, runtime and platform

    Concrete collaborators on which the generator can be run: iteration
    visits a registry in the order of its map, the spec-level [Goify] and
    [BuildEncoders] are used, and a writer keeps the text of its file in the
    file system. *)
Module Sample.
Definition design : Design := {|
  APIDefinition_Context api := APIDefinition.Name api;
  IterateResources_order api := (map_to_list (APIDefinition.Resources api)).*2;
  IterateActions_order r := (map_to_list (ResourceDefinition.Actions r)).*2;
  IterateMediaTypes_order api :=
    (map_to_list (APIDefinition.MediaTypes api)).*2;
  IterateUserTypes_order api := (map_to_list (APIDefinition.Types api)).*2;
  MediaTypeWithIdentifier api id := APIDefinition.MediaTypes api !! id;
  Merge a b := match b with Some _ => b | None => a end;
  AllParams a := ActionDefinition.Params a;
  ToObject t := match t with Object fields => fields | _ => [] end;
  IsObject t := match t with Object _ => true | _ => false end;
  IsArray t := match t with Array _ => true | _ => false end;
  IsBuiltIn mt :=
    bool_decide (MediaTypeDefinition.Identifier mt = "application/vnd.goa.error");
  PreflightPaths r := [];
  AllOrigins r := [];
  Goify := Goify_model;
  CanonicalTemplate r := ResourceDefinition.BasePath r;
  CanonicalParams r := [];
  BuildEncoders := BuildEncoders_model |}.

(** Two runtimes: one ranges over a map in the order of its enumeration,
    the other in the reverse order. *)
Definition runtime : GoRuntime :=
  {| range_map V m := map_to_list m;
     range_map_perm V m := reflexivity (map_to_list m) |}.

Definition runtime_rev : GoRuntime :=
  {| range_map V m := reverse (map_to_list m);
     range_map_perm V m := reverse_Permutation (map_to_list m) |}.

Definition append_text (f text : string) (fs : FS) : FS :=
  match fs !! f with
  | Some (File content) => <[f := File (content +:+ text)]> fs
  | _ => fs
  end.

Definition write (f : string) (c : WriterCall) (fs : FS) : FS :=
  match c with
  | New => <[f := File ""]> fs
  | WriteHeader title pack _ =>
      append_text f ("// " +:+ title +:+ "; package " +:+ pack +:+ "; ") fs
  | FormatCode => fs
  | _ => append_text f "unit; " fs
  end.

(** A platform on which no call fails; the test generator writes nothing. *)
Definition platform : Platform := {|
  MkdirAll_error d fs := None;
  writer_call w f c fs := (write f c fs, None);
  resource_test api g fs := (fs, [], None) |}.


(** A platform on which the file of the controllers writer cannot be
    created. *)
Definition broken_platform : Platform := {|
  MkdirAll_error d fs := None;
  writer_call w f c fs :=
    match w, c with
    | ControllersWriter, New => (fs, Some "controllers.go: cannot create")
    | _, _ => (write f c fs, None)
    end;
  resource_test api g fs := (fs, [], None) |}.

(** The "dummy API with no resource" of the tests. *)
Definition dummy_api : APIDefinition.t := {|
  APIDefinition.Name := "test api";
  APIDefinition.Title := "dummy API with no resource";
  APIDefinition.Description := "I told you it's dummy";
  APIDefinition.Resources := ∅;
  APIDefinition.MediaTypes := ∅;
  APIDefinition.Types := ∅;
  APIDefinition.SecuritySchemes := [];
  APIDefinition.Produces := [];
  APIDefinition.Consumes := [] |}.

Definition ok_response : ResponseDefinition.t :=
  ResponseDefinition.mk "ok" 200 "get of widgets"
    "vnd.rightscale.codegen.test.widgets".

Definition switch_response : ResponseDefinition.t :=
  ResponseDefinition.mk "switch" 101 "protocol switch" "".

Definition get_action : ActionDefinition.t := {|
  ActionDefinition.Name := "get";
  ActionDefinition.Description := "get widgets";
  ActionDefinition.Parent_Name := "Widget";
  ActionDefinition.Routes := [RouteDefinition.mk "GET" "/:id"];
  ActionDefinition.Responses :=
    {[ "ok" := ok_response; "switch" := switch_response ]};
  ActionDefinition.Params :=
    Some (Attribute
            (Object [("id", Attribute (PrimitiveT String_) "widget id" [])])
            "" ["id"]);
  ActionDefinition.Payload := None;
  ActionDefinition.PayloadOptional := false;
  ActionDefinition.Headers := None;
  ActionDefinition.Security := None |}.

Definition widget_resource : ResourceDefinition.t := {|
  ResourceDefinition.Name := "Widget";
  ResourceDefinition.BasePath := "/widgets";
  ResourceDefinition.Description := "Widgetty";
  ResourceDefinition.MediaType := "vnd.rightscale.codegen.test.widgets";
  ResourceDefinition.CanonicalActionName := "get";
  ResourceDefinition.Actions := {[ "get" := get_action ]};
  ResourceDefinition.Headers := None;
  ResourceDefinition.FileServers := [] |}.

Definition widget_media_type : MediaTypeDefinition.t := {|
  MediaTypeDefinition.UserTypeDefinition :=
    UserTypeDefinition.mk
      (Attribute (Object [("id", Attribute (PrimitiveT String_) "" [])]) "" [])
      "id";
  MediaTypeDefinition.Identifier := "vnd.rightscale.codegen.test.widgets";
  MediaTypeDefinition.Views := ∅ |}.

Definition text_media_type : MediaTypeDefinition.t := {|
  MediaTypeDefinition.UserTypeDefinition :=
    UserTypeDefinition.mk (Attribute (PrimitiveT String_) "" []) "text";
  MediaTypeDefinition.Identifier := "text/plain";
  MediaTypeDefinition.Views := ∅ |}.

(** The "simple API" of the tests, with a 101 response and a media type of
    primitive type added. *)
Definition widget_api : APIDefinition.t := {|
  APIDefinition.Name := "test api";
  APIDefinition.Title := "dummy API with no resource";
  APIDefinition.Description := "I told you it's dummy";
  APIDefinition.Resources := {[ "Widget" := widget_resource ]};
  APIDefinition.MediaTypes :=
    {[ "vnd.rightscale.codegen.test.widgets" := widget_media_type;
       "text/plain" := text_media_type ]};
  APIDefinition.Types := ∅;
  APIDefinition.SecuritySchemes := [];
  APIDefinition.Produces :=
    [ EncodingDefinition.mk ["application/json"] "encoding/json" "NewEncoder";
      EncodingDefinition.mk ["application/xml"] "encoding/xml" "NewEncoder" ];
  APIDefinition.Consumes :=
    [ EncodingDefinition.mk ["application/json"] "encoding/json" "NewDecoder" ]
|}.

(** The state before a run into "out/app", where an earlier run left a
    file. *)
Definition initial (api : APIDefinition.t) : State := {|
  gen := mkGenerator "out/app" "app" false [];
  fs := {[ "out/app" := Dir; "out/app/stale.go" := File "old" ]};
  design_Design := Some api;
  trace := [] |}.
End Sample.

(** * Reasoning about runs *)

(** ** Artifacts and the calls that belong to them *)

Inductive Artifact :=
  | Contexts
  | Controllers
  | Security
  | Hrefs
  | MediaTypes
  | UserTypes
  | ResourceTests.

#[global] Instance Artifact_eq_dec : EqDecision Artifact.
Proof. solve_decision. Defined.

(** The position of an artifact in the generation order. *)
Definition rank (k : Artifact) : nat :=
  match k with
  | Contexts => 0
  | Controllers => 1
  | Security => 2
  | Hrefs => 3
  | MediaTypes => 4
  | UserTypes => 5
  | ResourceTests => 6
  end.

Definition artifact_of_writer (w : Writer) : Artifact :=
  match w with
  | ContextsWriter => Contexts
  | ControllersWriter => Controllers
  | SecurityWriter => Security
  | ResourcesWriter => Hrefs
  | MediaTypesWriter => MediaTypes
  | UserTypesWriter => UserTypes
  end.

(** The artifact a call works on; the calls to the operating system work on
    none. *)
Definition artifact_of (c : Call) : option Artifact :=
  match c with
  | WriterOp w _ _ => Some (artifact_of_writer w)
  | ResourceTest _ => Some ResourceTests
  | _ => None
  end.

(** The call that ends the generation of an artifact. *)
Definition final_call (c : Call) : bool :=
  match c with
  | WriterOp _ _ FormatCode => true
  | ResourceTest _ => true
  | _ => false
  end.

(** An artifact is completed in a log when its final call is there and
    returned no error. *)
Definition completed (k : Artifact) (evs : list (Call * option error)) : Prop :=
  ∃ c, (c, None) ∈ evs ∧ artifact_of c = Some k ∧ final_call c = true.

Definition artifacts (evs : list (Call * option error)) : list Artifact :=
  omap (λ ev, artifact_of ev.1) evs.

Lemma artifacts_app evs1 evs2 :
  artifacts (evs1 ++ evs2) = artifacts evs1 ++ artifacts evs2.
Proof. apply omap_app. Qed.

Lemma elem_of_artifacts k evs :
  k ∈ artifacts evs ↔ ∃ ev, ev ∈ evs ∧ artifact_of ev.1 = Some k.
Proof. unfold artifacts. by rewrite list_elem_of_omap. Qed.

Lemma completed_app_l k evs1 evs2 : completed k evs1 → completed k (evs1 ++ evs2).
Proof.
  intros (c & Hc & Hk). exists c. split; [|done].
  apply elem_of_app. by left.
Qed.

Lemma completed_app_r k evs1 evs2 : completed k evs2 → completed k (evs1 ++ evs2).
Proof.
  intros (c & Hc & Hk). exists c. split; [|done].
  apply elem_of_app. by right.
Qed.

(** ** Frames: what no step of the generator changes *)

Definition same_config (s s' : State) : Prop :=
  outDir (gen s') = outDir (gen s) ∧
  target (gen s') = target (gen s) ∧
  notest (gen s') = notest (gen s) ∧
  design_Design s' = design_Design s.

Lemma same_config_refl s : same_config s s.
Proof. by repeat split. Qed.

Lemma same_config_trans s1 s2 s3 :
  same_config s1 s2 → same_config s2 s3 → same_config s1 s3.
Proof.
  intros (?&?&?&?) (?&?&?&?). repeat split; by etrans.
Qed.

Section Runs.
Context `{D : Design, R : GoRuntime, P : Platform}.

(** No collaborator fails. *)
Definition reliable : Prop :=
  (∀ d fs, MkdirAll_error d fs = None) ∧
  (∀ w f c fs, (writer_call w f c fs).2 = None) ∧
  (∀ api g fs, (resource_test api g fs).2 = None) ∧
  (∀ l b, (BuildEncoders l b).2 = None).

(** A computation that only makes calls allowed by [allowed]: it returns,
    leaves the generator alone and extends the log; an error it returns is
    the one of a call it logged; it returns [nil] when no collaborator
    fails. *)
Definition runs (allowed : Call → Prop) (m : M (option error)) : Prop :=
  ∀ s, ∃ evs r fs',
    m s = (Returned r,
           mkState (gen s) fs' (design_Design s) (trace s ++ evs)) ∧
    Forall (λ ev, allowed ev.1) evs ∧
    (∀ e, r = Some e → ∃ c, (c, Some e) ∈ evs) ∧
    (reliable → r = None).

Lemma runs_ret allowed : runs allowed (mret None).
Proof.
  intros s. exists [], None, (fs s). rewrite app_nil_r.
  split; [by destruct s|]. by split_and!.
Qed.

Lemma runs_call_writer (allowed : Call → Prop) w f c :
  allowed (WriterOp w f c) → runs allowed (call_writer w f c).
Proof.
  intros Hc s. unfold call_writer.
  destruct (writer_call w f c (fs s)) as [fs' r] eqn:E.
  exists [(WriterOp w f c, r)], r, fs'. split; [done|]. split_and!.
  - by constructor.
  - intros e ->. eexists. apply list_elem_of_here.
  - intros (_ & Hw & _). specialize (Hw w f c (fs s)). by rewrite E in Hw.
Qed.

Lemma runs_iterate {A} allowed (it : A → M (option error)) (l : list A) :
  (∀ x, x ∈ l → runs allowed (it x)) → runs allowed (iterate it l).
Proof.
  induction l as [|x l IH]; intros Hit; [apply runs_ret|].
  intros s. simpl. unfold mbind, M_bind.
  destruct (Hit x (list_elem_of_here _ _) s)
    as (evs1 & r1 & fs1 & -> & H1 & He1 & Hr1).
  destruct r1 as [e|].
  - exists evs1, (Some e), fs1. by split_and!.
  - destruct (IH (λ y Hy, Hit y (list_elem_of_further _ _ _ Hy))
                (mkState (gen s) fs1 (design_Design s) (trace s ++ evs1)))
      as (evs2 & r2 & fs2 & -> & H2 & He2 & Hr2).
    exists (evs1 ++ evs2), r2, fs2. simpl. rewrite app_assoc.
    split; [done|]. split_and!; [by apply Forall_app| |done].
    intros e He. destruct (He2 e He) as [c Hc]. exists c.
    apply elem_of_app. by right.
Qed.

Lemma call_writer_run w f c s :
  ∃ r fs',
    call_writer w f c s
    = (Returned r,
       mkState (gen s) fs' (design_Design s)
               (trace s ++ [(WriterOp w f c, r)])) ∧
    (reliable → r = None).
Proof.
  unfold call_writer.
  destruct (writer_call w f c (fs s)) as [fs' r] eqn:E.
  exists r, fs'. split; [done|].
  intros (_ & Hw & _). specialize (Hw w f c (fs s)). by rewrite E in Hw.
Qed.

(** ** What each step of the generator does *)

(** The calls received by the writer of kind [w] opened on [file]: its
    constructor, its final [FormatCode], and the calls in [specific]. *)
Definition writer_calls (w : Writer) (file : string)
    (specific : WriterCall → Prop) (c : Call) : Prop :=
  ∃ wc, c = WriterOp w file wc ∧ (wc = New ∨ wc = FormatCode ∨ specific wc).

Lemma writer_calls_artifact w file specific c :
  writer_calls w file specific c → artifact_of c = Some (artifact_of_writer w).
Proof. by intros (wc & -> & _). Qed.

(** The outcome [r] of a step started in [s]: the step keeps the
    configuration, logs only calls in [allowed], and only appends to
    [genfiles]; when it returns [nil] it has appended [files] and, if it is
    enabled, completed its artifact; an error it returns is the one of a
    call it logged or one in [errors]; it returns [nil] when no collaborator
    fails. *)
Definition step_post (allowed : Call → Prop) (files : list string → Prop)
    (errors : error → Prop) (k : Artifact) (enabled : bool)
    (s : State) (r : Outcome (option error) * State) : Prop :=
  ∃ evs l,
    same_config s r.2 ∧
    trace r.2 = trace s ++ evs ∧
    Forall (λ ev, allowed ev.1) evs ∧
    genfiles (gen r.2) = genfiles (gen s) ++ l ∧
    (r.1 = Returned None → files l ∧ (enabled = true → completed k evs)) ∧
    (∀ e, r.1 = Returned (Some e) → (∃ c, (c, Some e) ∈ evs) ∨ errors e) ∧
    (reliable → is_Some (design_Design s) → r.1 = Returned None).

(** No error other than those of the logged calls. *)
Definition no_error : error → Prop := λ _, False.

(** The errors of [BuildEncoders] on the content types of the API. *)
Definition BuildEncoders_error (api : APIDefinition.t) (e : error) : Prop :=
  (BuildEncoders (APIDefinition.Produces api) true).2 = Some e ∨
  (BuildEncoders (APIDefinition.Consumes api) false).2 = Some e.

(** The calls of each step.  [d] is the output directory and [tgt] the
    target package of the generator. *)
Definition is_WriteHeader (wc : WriterCall) : Prop :=
  ∃ title pack imports, wc = WriteHeader title pack imports.

Definition contexts_calls (d tgt : string) (api : APIDefinition.t)
  : Call → Prop :=
  writer_calls ContextsWriter (filepath_Join d "contexts.go")
    (λ wc, is_WriteHeader wc ∨
           (∃ r a, r ∈ IterateResources_order api ∧
                   a ∈ IterateActions_order r ∧
                   wc = ExecuteContext (ctxData tgt api r a))).

Definition controllers_calls (d tgt : string) (api : APIDefinition.t)
  : Call → Prop :=
  let encoders := (BuildEncoders (APIDefinition.Produces api) true).1 in
  let decoders := (BuildEncoders (APIDefinition.Consumes api) false).1 in
  writer_calls ControllersWriter (filepath_Join d "controllers.go")
    (λ wc, (∃ title, wc = WriteHeader title tgt
                            (controllersImports encoders decoders)) ∨
           wc = WriteInitService encoders decoders ∨
           wc = ExecuteControllers (controllersData api encoders decoders)).

Definition security_calls (d : string) (design : option APIDefinition.t)
  : Call → Prop :=
  writer_calls SecurityWriter (filepath_Join d "security.go")
    (λ wc, is_WriteHeader wc ∨
           (∃ dsg, design = Some dsg ∧
                   wc = ExecuteSecurity (APIDefinition.SecuritySchemes dsg))).

Definition hrefs_calls (d : string) (api : APIDefinition.t) : Call → Prop :=
  writer_calls ResourcesWriter (filepath_Join d "hrefs.go")
    (λ wc, is_WriteHeader wc ∨
           (∃ r, r ∈ IterateResources_order api ∧
                 wc = ExecuteResource (resourceData api r))).

(** The media types for which a unit is emitted. *)
Definition emitted (mt : MediaTypeDefinition.t) : bool :=
  negb (IsBuiltIn mt) &&
  (IsObject (MediaTypeDefinition.Type_ mt)
   || IsArray (MediaTypeDefinition.Type_ mt)).

Definition mediaTypes_calls (d : string) (api : APIDefinition.t)
  : Call → Prop :=
  writer_calls MediaTypesWriter (filepath_Join d "media_types.go")
    (λ wc, is_WriteHeader wc ∨
           (∃ mt, mt ∈ IterateMediaTypes_order api ∧ emitted mt = true ∧
                  wc = ExecuteMediaType mt)).

Definition userTypes_calls (d : string) (api : APIDefinition.t)
  : Call → Prop :=
  writer_calls UserTypesWriter (filepath_Join d "user_types.go")
    (λ wc, is_WriteHeader wc ∨
           (∃ t, t ∈ IterateUserTypes_order api ∧ wc = ExecuteUserType t)).

Definition resourceTest_calls (api : APIDefinition.t) : Call → Prop :=
  λ c, c = ResourceTest api.

(** Symbolic execution of a step: [unfold_m] exposes the next call,
    [run_call] and [run_iterate] name its result and the state it leaves. *)
Ltac unfold_m :=
  repeat (unfold mbind, M_bind, mret, M_ret, NewWriter, get_g, check, panic,
            append_genfiles, set_genfiles, get_Design;
          cbn beta iota zeta delta [fst snd gen fs design_Design trace
            genfiles outDir target notest]).

Ltac run_call :=
  match goal with
  | |- context [call_writer ?w ?f ?c ?s] =>
      let r := fresh "r" in
      let fs' := fresh "fs" in
      let E := fresh "E" in
      let H := fresh "Hrel" in
      destruct (call_writer_run w f c s) as (r & fs' & E & H);
      rewrite E; clear E; unfold_m
  end.

Ltac run_iterate allowed :=
  match goal with
  | |- context [iterate ?it ?l ?s] =>
      let evs := fresh "evs" in
      let r := fresh "r" in
      let fs' := fresh "fs" in
      let E := fresh "E" in
      let Hall := fresh "Hall" in
      let Herr := fresh "Herr" in
      let H := fresh "Hrel" in
      let Hit := fresh "Hit" in
      assert (runs allowed (iterate it l)) as Hit;
      [ | destruct (Hit s) as (evs & r & fs' & E & Hall & Herr & H);
          rewrite E; clear E Hit; unfold_m ]
  end.

Ltac allowed_call :=
  hnf; eexists; split; [reflexivity|]; simpl; unfold is_WriteHeader; eauto 10.

Ltac forall_allowed :=
  repeat first
    [ assumption
    | apply Forall_nil_2
    | apply Forall_cons; split; [cbn [fst]; allowed_call|]
    | apply Forall_app; split ].

Ltac completed_last :=
  rewrite ?app_assoc; apply completed_app_r;
  eexists; split_and!; [apply list_elem_of_here|reflexivity|reflexivity].

(** The error returned is the one of the last call, or of a call of the
    iteration. *)
Ltac error_logged :=
  first
    [ match goal with
      | H : ∀ e, Some ?e0 = Some e → ∃ c, _ |- _ =>
          let c := fresh "c" in
          let Hc := fresh "Hc" in
          destruct (H e0 eq_refl) as [c Hc]; exists c;
          rewrite !elem_of_app; tauto
      end
    | eexists; rewrite ?app_assoc; apply elem_of_app; right;
      apply list_elem_of_here ].

(** Closes [step_post] once the run is explicit. *)
Ltac finish_step :=
  eexists _, _; split_and!;
  [ by repeat split
  | cbn [trace]; rewrite <- ?app_assoc; reflexivity
  | forall_allowed
  | cbn [gen genfiles]; first [reflexivity | by rewrite app_nil_r]
  | cbn [fst]; intros ?; simplify_eq; try (split; [reflexivity|intros _; completed_last])
  | cbn [fst]; intros ? ?; simplify_eq;
    try first [ left; error_logged | right; unfold BuildEncoders_error; cbn; tauto ]
  | cbn [fst]; intros ? ?;
    repeat match goal with
           | H : reliable → _, Hr : reliable |- _ => specialize (H Hr)
           end; simplify_eq; try done ].

Lemma generateContexts_spec api s :
  step_post (contexts_calls (outDir (gen s)) (target (gen s)) api)
    (eq [filepath_Join (outDir (gen s)) "contexts.go"]) no_error Contexts true
    s (generateContexts api s).
Proof.
  unfold generateContexts. unfold_m. run_call.
  destruct r as [e|]; unfold_m; [finish_step|].
  run_call.
  run_iterate (contexts_calls (outDir (gen s)) (target (gen s)) api).
  { apply runs_iterate. intros x Hx. apply runs_iterate. intros a Ha.
    apply runs_call_writer. allowed_call. }
  destruct r0 as [e|]; unfold_m; [finish_step|].
  run_call. finish_step.
Qed.

Lemma generateHrefs_spec api s :
  step_post (hrefs_calls (outDir (gen s)) api)
    (eq [filepath_Join (outDir (gen s)) "hrefs.go"]) no_error Hrefs true
    s (generateHrefs api s).
Proof.
  unfold generateHrefs. unfold_m. run_call.
  destruct r as [e|]; unfold_m; [finish_step|].
  run_call.
  run_iterate (hrefs_calls (outDir (gen s)) api).
  { apply runs_iterate. intros x Hx. apply runs_call_writer. allowed_call. }
  destruct r0 as [e|]; unfold_m; [finish_step|].
  run_call. finish_step.
Qed.

Lemma mediaTypeIterator_runs d api mt :
  mt ∈ IterateMediaTypes_order api →
  runs (mediaTypes_calls d api)
    (mediaTypeIterator (filepath_Join d "media_types.go") mt).
Proof.
  intros Hmt. unfold mediaTypeIterator.
  destruct (IsBuiltIn mt) eqn:Hb; [apply runs_ret|].
  destruct (IsObject _ || IsArray _) eqn:Ht; [|apply runs_ret].
  apply runs_call_writer. hnf. eexists. split; [reflexivity|].
  right. right. right. exists mt. unfold emitted. rewrite Hb, Ht. by split.
Qed.

Lemma generateMediaTypes_spec api s :
  step_post (mediaTypes_calls (outDir (gen s)) api)
    (eq [filepath_Join (outDir (gen s)) "media_types.go"]) no_error MediaTypes true
    s (generateMediaTypes api s).
Proof.
  unfold generateMediaTypes. unfold_m. run_call.
  destruct r as [e|]; unfold_m; [finish_step|].
  run_call.
  run_iterate (mediaTypes_calls (outDir (gen s)) api).
  { apply runs_iterate. intros x Hx. by apply mediaTypeIterator_runs. }
  destruct r0 as [e|]; unfold_m; [finish_step|].
  run_call. finish_step.
Qed.

Lemma generateUserTypes_spec api s :
  step_post (userTypes_calls (outDir (gen s)) api)
    (eq [filepath_Join (outDir (gen s)) "user_types.go"]) no_error UserTypes true
    s (generateUserTypes api s).
Proof.
  unfold generateUserTypes. unfold_m. run_call.
  destruct r as [e|]; unfold_m; [finish_step|].
  run_call.
  run_iterate (userTypes_calls (outDir (gen s)) api).
  { apply runs_iterate. intros x Hx. apply runs_call_writer. allowed_call. }
  destruct r0 as [e|]; unfold_m; [finish_step|].
  run_call. finish_step.
Qed.
Lemma generateControllers_spec api s :
  step_post (controllers_calls (outDir (gen s)) (target (gen s)) api)
    (eq [filepath_Join (outDir (gen s)) "controllers.go"])
    (BuildEncoders_error api) Controllers true
    s (generateControllers api s).
Proof.
  unfold generateControllers, controllers_calls. unfold_m. run_call.
  destruct r as [e|]; unfold_m; [finish_step|].
  assert (reliable → (BuildEncoders (APIDefinition.Produces api) true).2 = None)
    as Hp by (intros (_ & _ & _ & Hb); apply Hb).
  assert (reliable → (BuildEncoders (APIDefinition.Consumes api) false).2 = None)
    as Hc by (intros (_ & _ & _ & Hb); apply Hb).
  unfold BuildEncoders_error.
  destruct (BuildEncoders (APIDefinition.Produces api) true)
    as [encoders [e|]]; unfold_m; [finish_step|].
  destruct (BuildEncoders (APIDefinition.Consumes api) false)
    as [decoders [e|]]; unfold_m; [finish_step|].
  run_call. run_call. run_call.
  destruct r1 as [e|]; unfold_m; [finish_step|].
  run_call. finish_step.
Qed.

(** [generateSecurity] does nothing when no security scheme is declared. *)
Definition security_enabled (api : APIDefinition.t) : bool :=
  bool_decide (length (APIDefinition.SecuritySchemes api) ≠ 0%nat).

Lemma generateSecurity_spec api s :
  step_post
    (if security_enabled api
     then security_calls (outDir (gen s)) (design_Design s)
     else λ _, False)
    (eq (if security_enabled api
         then [filepath_Join (outDir (gen s)) "security.go"] else []))
    no_error Security (security_enabled api)
    s (generateSecurity api s).
Proof.
  unfold generateSecurity, security_enabled.
  destruct (decide (length (APIDefinition.SecuritySchemes api) = 0%nat))
    as [Hz|Hnz].
  - rewrite bool_decide_eq_false_2 by (by intros ?).
    unfold_m. exists [], []. rewrite !app_nil_r. by split_and!.
  - rewrite bool_decide_eq_true_2 by done.
    unfold_m. run_call.
    destruct r as [e|]; unfold_m; [finish_step|].
    run_call.
    destruct (design_Design s) as [dsg|] eqn:Hd; unfold_m.
    + run_call. destruct r0 as [e|]; unfold_m; [finish_step|].
      run_call. finish_step.
    + finish_step.
      match goal with H : is_Some _ |- _ => destruct H; congruence end.
Qed.

Lemma generateResourceTest_spec api s :
  step_post (resourceTest_calls api) (λ _, True) no_error ResourceTests true
    s (generateResourceTest api s).
Proof.
  unfold generateResourceTest.
  assert (reliable → (resource_test api (gen s) (fs s)).2 = None)
    as Hr by (intros (_ & _ & Ht & _); apply Ht).
  destruct (resource_test api (gen s) (fs s)) as [[fs' files] r].
  unfold log. unfold_m.
  exists [(ResourceTest api, r)], files. split_and!; try done.
  - by repeat constructor.
  - cbn [fst]. intros ?; simplify_eq. split; [done|]. intros _.
    exists (ResourceTest api). split_and!; [apply list_elem_of_here|done..].
  - cbn [fst]. intros e [= ->]. left. eexists. apply list_elem_of_here.
  - cbn [fst snd] in *. intros Hrel _. by rewrite (Hr Hrel).
Qed.

(** The last step: the resource tests, unless disabled. *)
Lemma resourceTestStep_spec g api s :
  step_post (if notest g then λ _, False else resourceTest_calls api)
    (λ l, notest g = true → l = []) no_error ResourceTests (negb (notest g))
    s ((if notest g then mret None else generateResourceTest api) s).
Proof.
  destruct (notest g) eqn:Hn.
  - unfold_m. exists [], []. rewrite !app_nil_r. by split_and!.
  - destruct (generateResourceTest_spec api s)
      as (evs & l & ? & ? & ? & ? & Hs & ? & ?).
    exists evs, l. split_and!; try done.
    intros Hret. destruct (Hs Hret) as [_ Hc]. split; [done|by intros _; apply Hc].
Qed.

(** ** Steps run in sequence *)

Record Step := mkStep {
  step_artifact : Artifact;
  step_enabled : bool;
  step_calls : Call → Prop;
  step_files : list string → Prop;
  step_errors : error → Prop;
  step_run : M (option error) }.

(** [return nil, err] *)
Definition fail (e : error) : list string * option error := ([], Some e).

(** [return g.genfiles, nil] *)
Definition finish : M (list string * option error) :=
  g ← get_g; mret (genfiles g, None).

(** The chain of [if err := step(); err != nil { return nil, err }]. *)
Definition sequence (steps : list Step) : M (list string * option error) :=
  foldr (λ st k, check (step_run st) fail k) finish steps.

(** A step is sound from the states that share the configuration of [s0]. *)
Definition step_sound (s0 : State) (st : Step) : Prop :=
  (∀ c, step_calls st c →
        artifact_of c = Some (step_artifact st) ∧ step_enabled st = true) ∧
  (∀ s, same_config s0 s →
        step_post (step_calls st) (step_files st) (step_errors st)
          (step_artifact st) (step_enabled st) s (step_run st s)).

(** The calls of a log are in the order of [steps]: each belongs to a step,
    their artifacts never go back in the generation order, and a call for
    an artifact comes only after every enabled earlier artifact has been
    completed. *)
Definition in_order (steps : list Step) (evs : list (Call * option error))
  : Prop :=
  Forall (λ ev, ∃ st, st ∈ steps ∧ step_calls st ev.1) evs ∧
  StronglySorted (λ a b, rank a ≤ rank b)%nat (artifacts evs) ∧
  ∀ ev k st,
    ev ∈ evs → artifact_of ev.1 = Some k →
    st ∈ steps → step_enabled st = true →
    (rank (step_artifact st) < rank k)%nat →
    completed (step_artifact st) evs.

Lemma artifacts_of_step s0 st evs :
  step_sound s0 st →
  Forall (λ ev, step_calls st ev.1) evs →
  Forall (λ k, k = step_artifact st) (artifacts evs).
Proof.
  intros [Hart _] Hall. apply Forall_forall. intros k Hk.
  apply elem_of_artifacts in Hk as (ev & Hev & Hk).
  rewrite Forall_forall in Hall.
  destruct (Hart _ (Hall _ Hev)) as [Hk' _]. congruence.
Qed.

Lemma StronglySorted_same (k : Artifact) (l : list Artifact) :
  Forall (λ k', k' = k) l →
  StronglySorted (λ a b, rank a ≤ rank b)%nat l.
Proof.
  induction 1 as [|x l -> Hl IH]; constructor; [done|].
  eapply Forall_impl; [exact Hl|]. by intros ? ->.
Qed.

Lemma in_order_single s0 st steps evs :
  step_sound s0 st →
  Forall (λ st', rank (step_artifact st) < rank (step_artifact st'))%nat steps →
  Forall (λ ev, step_calls st ev.1) evs →
  in_order (st :: steps) evs.
Proof.
  intros Hst Hlt Hall. pose proof (artifacts_of_step _ _ _ Hst Hall) as Hk.
  split_and!.
  - eapply Forall_impl; [exact Hall|]. intros ev Hev. exists st.
    split; [apply list_elem_of_here|done].
  - by eapply StronglySorted_same.
  - intros ev k st' Hev Hart Hin Hen Hrank. exfalso.
    rewrite Forall_forall in Hk.
    assert (k = step_artifact st) as ->.
    { apply Hk. apply elem_of_artifacts. eauto. }
    apply elem_of_cons in Hin as [->|Hin]; [lia|].
    rewrite Forall_forall in Hlt. specialize (Hlt _ Hin). lia.
Qed.

Lemma sequence_cons st steps s :
  sequence (st :: steps) s
  = match step_run st s with
    | (Returned None, s1) => sequence steps s1
    | (Returned (Some e), s1) => (Returned (fail e), s1)
    | (Panicked e, s1) => (Panicked e, s1)
    end.
Proof.
  cbn [sequence foldr]. unfold check, mbind, M_bind.
  by destruct (step_run st s) as [[[e|]|e] s1].
Qed.

(** The error [e] comes from the run of [steps] that logged [evs]: it was
    returned by a logged call, or it is an error of one of the steps. *)
Definition error_from (steps : list Step) (evs : list (Call * option error))
    (e : error) : Prop :=
  (∃ c, (c, Some e) ∈ evs) ∨ ∃ st, st ∈ steps ∧ step_errors st e.

Lemma sequence_spec s0 steps :
  Forall (step_sound s0) steps →
  StronglySorted
    (λ a b, rank (step_artifact a) < rank (step_artifact b))%nat steps →
  ∀ s, same_config s0 s →
  ∃ evs l,
    same_config s (sequence steps s).2 ∧
    trace (sequence steps s).2 = trace s ++ evs ∧
    genfiles (gen (sequence steps s).2) = genfiles (gen s) ++ l ∧
    in_order steps evs ∧
    (∀ files, (sequence steps s).1 = Returned (files, None) →
       files = genfiles (gen (sequence steps s).2) ∧
       (∃ ls, l = concat ls ∧ Forall2 step_files steps ls) ∧
       Forall (λ st, step_enabled st = true →
                     completed (step_artifact st) evs) steps) ∧
    (∀ files e, (sequence steps s).1 = Returned (files, Some e) →
       files = [] ∧ error_from steps evs e) ∧
    (reliable → is_Some (design_Design s) →
       ∃ files, (sequence steps s).1 = Returned (files, None)).
Proof.
  induction steps as [|st steps IH]; intros Hsound Hsorted s Hs.
  { exists [], []. cbn. rewrite !app_nil_r. split_and!; try done.
    - split_and!; [constructor|constructor|]. intros ev ? ? Hev. by inv Hev.
    - intros files [= <-]. split_and!; [done| |done]. by exists [].
    - intros _ _. by eexists. }
  apply Forall_cons in Hsound as [Hst Hsound].
  apply StronglySorted_cons in Hsorted as [Hlt Hsorted].
  pose proof Hst as [Hart Hpost].
  destruct (Hpost s Hs)
    as (evs1 & l1 & Hc1 & Ht1 & Hall1 & Hg1 & Hok1 & Hfrom1 & Hrel1).
  rewrite sequence_cons.
  destruct (step_run st s) as [[[e|]|e] s1] eqn:Hrun; cbn [fst snd] in *.
  - (* the step returned an error *)
    exists evs1, l1. cbn [fst snd]. unfold fail.
    split_and!; [done|done|done| | | |].
    + by eapply in_order_single.
    + by intros files [=].
    + intros files e' [= <- <-]. split; [done|].
      destruct (Hfrom1 e eq_refl) as [Hlog|Herr]; [by left|].
      right. exists st. split; [apply list_elem_of_here|done].
    + intros Hr Hd. by specialize (Hrel1 Hr Hd).
  - (* the step returned nil: the rest runs *)
    destruct (Hok1 eq_refl) as [Hfiles1 Hdone1].
    destruct (IH Hsound Hsorted s1 (same_config_trans _ _ _ Hs Hc1))
      as (evs2 & l2 & Hc2 & Ht2 & Hg2 & (Hall2 & Hsort2 & Hprec2)
          & Hok2 & Herr2 & Hrel2).
    exists (evs1 ++ evs2), (l1 ++ l2). split_and!.
    + by eapply same_config_trans.
    + by rewrite Ht2, Ht1, app_assoc.
    + by rewrite Hg2, Hg1, app_assoc.
    + split_and!.
      * apply Forall_app. split.
        -- eapply Forall_impl; [exact Hall1|]. intros ev Hev. exists st.
           split; [apply list_elem_of_here|done].
        -- eapply Forall_impl; [exact Hall2|]. intros ev (st' & Hin & Hev).
           exists st'. split; [by apply list_elem_of_further|done].
      * rewrite artifacts_app. apply StronglySorted_app_2.
        -- intros k1 k2 Hk1 Hk2.
           pose proof (artifacts_of_step _ _ _ Hst Hall1) as Hk.
           rewrite Forall_forall in Hk. rewrite (Hk _ Hk1).
           apply elem_of_artifacts in Hk2 as (ev & Hev & Hk2).
           rewrite Forall_forall in Hall2.
           destruct (Hall2 _ Hev) as (st' & Hin & Hcall).
           rewrite Forall_forall in Hsound.
           destruct (Hsound _ Hin) as [Hart' _].
           destruct (Hart' _ Hcall) as [Hk2' _].
           assert (k2 = step_artifact st') as -> by congruence.
           rewrite Forall_forall in Hlt. specialize (Hlt _ Hin). lia.
        -- eapply StronglySorted_same, artifacts_of_step; eauto.
        -- done.
      * intros ev k st' Hev Hk Hin Hen Hrank.
        apply elem_of_app in Hev as [Hev|Hev].
        -- exfalso.
           pose proof (artifacts_of_step _ _ _ Hst Hall1) as Hk1.
           rewrite Forall_forall in Hk1.
           assert (k = step_artifact st) as ->.
           { apply Hk1. apply elem_of_artifacts. eauto. }
           apply elem_of_cons in Hin as [->|Hin]; [lia|].
           rewrite Forall_forall in Hlt. specialize (Hlt _ Hin). lia.
        -- apply elem_of_cons in Hin as [->|Hin].
           ++ apply completed_app_l. by apply Hdone1.
           ++ apply completed_app_r. by eapply Hprec2.
    + intros files Hret. destruct (Hok2 files Hret) as (Hf & (ls & -> & Hls) & Hdone2).
      split_and!; [done| |].
      * exists (l1 :: ls). split; [done|]. by constructor.
      * constructor.
        -- intros Hen. apply completed_app_l. by apply Hdone1.
        -- eapply Forall_impl; [exact Hdone2|]. intros st' Hst' Hen.
           apply completed_app_r. by apply Hst'.
    + intros files e Hret. destruct (Herr2 files e Hret) as [-> Hfrom2].
      split; [done|]. destruct Hfrom2 as [[c Hc]|(st' & Hin & Herr)].
      * left. exists c. apply elem_of_app. by right.
      * right. exists st'. split; [by apply list_elem_of_further|done].
    + intros Hr Hd. apply Hrel2; [done|].
      destruct Hc1 as (_ & _ & _ & ->). done.
  - (* the step panicked *)
    exists evs1, l1. cbn [fst snd].
    split_and!; [done|done|done| | | |].
    + by eapply in_order_single.
    + by intros files [=].
    + by intros files e' [=].
    + intros Hr Hd. by specialize (Hrel1 Hr Hd).
Qed.

(** ** The run of [Generate] *)

(** The seven steps of [Generate] for the generator [g], with the calls
    each may make and the files each appends. *)
Definition generation_steps (g : Generator)
    (design : option APIDefinition.t) (api : APIDefinition.t) : list Step :=
  let d := outDir g in
  [ mkStep Contexts true (contexts_calls d (target g) api)
      (eq [filepath_Join d "contexts.go"]) no_error (generateContexts api);
    mkStep Controllers true (controllers_calls d (target g) api)
      (eq [filepath_Join d "controllers.go"]) (BuildEncoders_error api)
      (generateControllers api);
    mkStep Security (security_enabled api)
      (if security_enabled api then security_calls d design else λ _, False)
      (eq (if security_enabled api
           then [filepath_Join d "security.go"] else []))
      no_error (generateSecurity api);
    mkStep Hrefs true (hrefs_calls d api)
      (eq [filepath_Join d "hrefs.go"]) no_error (generateHrefs api);
    mkStep MediaTypes true (mediaTypes_calls d api)
      (eq [filepath_Join d "media_types.go"]) no_error
      (generateMediaTypes api);
    mkStep UserTypes true (userTypes_calls d api)
      (eq [filepath_Join d "user_types.go"]) no_error (generateUserTypes api);
    mkStep ResourceTests (negb (notest g))
      (if notest g then λ _, False else resourceTest_calls api)
      (λ l, notest g = true → l = []) no_error
      (if notest g then mret None else generateResourceTest api) ].

Lemma generation_steps_sorted g design api :
  StronglySorted
    (λ a b, rank (step_artifact a) < rank (step_artifact b))%nat
    (generation_steps g design api).
Proof. unfold generation_steps. repeat constructor; simpl; lia. Qed.

Lemma generation_steps_sound s0 api :
  Forall (step_sound s0)
    (generation_steps (gen s0) (design_Design s0) api).
Proof.
  unfold generation_steps.
  repeat apply Forall_cons_2; [..|apply Forall_nil_2]; split; cbn.
  - intros c Hc. split; [exact (writer_calls_artifact _ _ _ _ Hc)|done].
  - intros s (Hd & Ht & _). rewrite <- Hd, <- Ht. apply generateContexts_spec.
  - intros c Hc. split; [exact (writer_calls_artifact _ _ _ _ Hc)|done].
  - intros s (Hd & Ht & _). rewrite <- Hd, <- Ht.
    apply generateControllers_spec.
  - intros c Hc. destruct (security_enabled api); [|done].
    split; [exact (writer_calls_artifact _ _ _ _ Hc)|done].
  - intros s (Hd & _ & _ & Hdes). rewrite <- Hd, <- Hdes.
    apply generateSecurity_spec.
  - intros c Hc. split; [exact (writer_calls_artifact _ _ _ _ Hc)|done].
  - intros s (Hd & _). rewrite <- Hd. apply generateHrefs_spec.
  - intros c Hc. split; [exact (writer_calls_artifact _ _ _ _ Hc)|done].
  - intros s (Hd & _). rewrite <- Hd. apply generateMediaTypes_spec.
  - intros c Hc. split; [exact (writer_calls_artifact _ _ _ _ Hc)|done].
  - intros s (Hd & _). rewrite <- Hd. apply generateUserTypes_spec.
  - intros c Hc. destruct (notest (gen s0)); [done|]. by rewrite Hc.
  - intros s _. apply resourceTestStep_spec.
Qed.

(** The state in which the first step starts: [utils.Catch] has been
    started, the output directory removed and created again, and
    [genfiles] holds the directory. *)
Definition started (s : State) (fs1 : FS) (r : option error)
    (files : list string) : State :=
  mkState
    (mkGenerator (outDir (gen s)) (target (gen s)) (notest (gen s)) files)
    fs1 (design_Design s)
    (trace s ++ [ (utils_Catch, None);
                  (RemoveAll (outDir (gen s)), None);
                  (MkdirAll (outDir (gen s)), r) ]).

(** The deferred function of [Generate], on the result of its body. *)
Definition run_deferred
    (r : Outcome (list string * option error) * State)
  : Outcome (list string * option error) * State :=
  match r with
  | (Returned (files, Some e), s') =>
      (Returned (files, Some e), (Cleanup s').2)
  | _ => r
  end.

Lemma Generate_unfold api s :
  Generate (Some api) s
  = match os_MkdirAll (outDir (gen s)) (os_RemoveAll (outDir (gen s)) (fs s))
    with
    | (fs1, Some e) =>
        run_deferred
          (Returned ([], Some e), started s fs1 (Some e) (genfiles (gen s)))
    | (fs1, None) =>
        run_deferred
          (sequence (generation_steps (gen s) (design_Design s) api)
             (started s fs1 None [outDir (gen s)]))
    end.
Proof.
  unfold Generate, go_utils_Catch, call_RemoveAll, call_MkdirAll, defer_, log.
  unfold_m.
  destruct (os_MkdirAll _ _) as [fs1 [e|]]; unfold_m.
  - unfold run_deferred, started, Cleanup. unfold_m.
    rewrite <- !app_assoc. cbn [app].
    destruct s as [[d t n files] fs0 ds tr]; cbn.
    destruct (decide (length files = 0%nat)); reflexivity.
  - unfold started, run_deferred.
    cbn [sequence generation_steps foldr step_run]. unfold finish, fail.
    unfold_m.
    rewrite <- !app_assoc. cbn [app].
    match goal with
    | |- (let (_, _) := ?X in _) = _ =>
        destruct X as [[[files [e|]]|e] s2]
    end; cbn; try done.
    unfold Cleanup, call_RemoveAll. unfold_m.
    destruct (decide (length (genfiles (gen s2)) = 0%nat)); reflexivity.
Qed.

(** The facts about the steps of a run whose directory was created. *)
Lemma generation_run api s fs1 :
  let s1 := started s fs1 None [outDir (gen s)] in
  let steps := generation_steps (gen s) (design_Design s) api in
  ∃ evs l,
    same_config s (sequence steps s1).2 ∧
    trace (sequence steps s1).2 = trace s1 ++ evs ∧
    genfiles (gen (sequence steps s1).2) = outDir (gen s) :: l ∧
    in_order steps evs ∧
    (∀ files, (sequence steps s1).1 = Returned (files, None) →
       files = genfiles (gen (sequence steps s1).2) ∧
       (∃ ls, l = concat ls ∧ Forall2 step_files steps ls) ∧
       Forall (λ st, step_enabled st = true →
                     completed (step_artifact st) evs) steps) ∧
    (∀ files e, (sequence steps s1).1 = Returned (files, Some e) →
       files = [] ∧ error_from steps evs e) ∧
    (reliable → is_Some (design_Design s) →
       ∃ files, (sequence steps s1).1 = Returned (files, None)).
Proof.
  intros s1 steps.
  assert (Forall (step_sound s1) steps) as Hsound.
  { assert (steps = generation_steps (gen s1) (design_Design s1) api) as ->
      by done.
    apply generation_steps_sound. }
  destruct (sequence_spec s1 steps Hsound
              (generation_steps_sorted _ _ _) s1 (same_config_refl _))
    as (evs & l & Hcfg & Htr & Hg & Hord & Hok & Herr & Hrel).
  exists evs, l. by split_and!.
Qed.

Lemma Cleanup_run s :
  genfiles (gen s) ≠ [] →
  Cleanup s
  = (Returned (),
     mkState (mkGenerator (outDir (gen s)) (target (gen s))
                          (notest (gen s)) [])
             (os_RemoveAll (outDir (gen s)) (fs s)) (design_Design s)
             (trace s ++ [(RemoveAll (outDir (gen s)), None)])).
Proof.
  intros Hne. unfold Cleanup, call_RemoveAll. unfold_m.
  destruct (decide (length (genfiles (gen s)) = 0%nat)) as [Hz|_]; [|done].
  by destruct (genfiles (gen s)).
Qed.

Lemma Cleanup_noop s : genfiles (gen s) = [] → Cleanup s = (Returned (), s).
Proof.
  intros Hnil. unfold Cleanup, call_RemoveAll. unfold_m. rewrite Hnil.
  reflexivity.
Qed.


(** Whether an artifact is generated at all: the security artifact only
    when a security scheme is declared, the resource tests unless test
    generation is disabled. *)
Definition artifact_enabled (g : Generator) (api : APIDefinition.t)
    (k : Artifact) : bool :=
  match k with
  | Security => security_enabled api
  | ResourceTests => negb (notest g)
  | _ => true
  end.

Lemma generation_steps_enabled g design api st :
  st ∈ generation_steps g design api →
  step_enabled st = artifact_enabled g api (step_artifact st).
Proof.
  unfold generation_steps. intros Hin.
  repeat (apply elem_of_cons in Hin as [->|Hin]; [done|]).
  by apply elem_of_nil in Hin.
Qed.

Lemma generation_steps_artifact g design api k :
  ∃ st, st ∈ generation_steps g design api ∧ step_artifact st = k.
Proof.
  apply Exists_exists. unfold generation_steps.
  destruct k;
    repeat first [ by apply Exists_cons_hd | apply Exists_cons_tl ].
Qed.

Lemma os_recreate d fs0 fs1 :
  os_MkdirAll d (os_RemoveAll d fs0) = (fs1, None) →
  fs1 !! d = Some Dir ∧
  ∀ p, under d p = true → p ≠ d → fs1 !! p = None.
Proof.
  unfold os_MkdirAll. destruct (MkdirAll_error _ _); [done|].
  intros [= <-]. split; [apply lookup_insert_eq|].
  intros p Hp Hne. rewrite lookup_insert_ne by done.
  by apply os_RemoveAll_absent.
Qed.

Lemma artifacts_snoc_os evs c r :
  artifact_of c = None → artifacts (evs ++ [(c, r)]) = artifacts evs.
Proof.
  intros Hc. rewrite artifacts_app. unfold artifacts at 2. cbn.
  rewrite Hc. apply app_nil_r.
Qed.

(** The files appended by the steps when all of them return [nil]. *)
Definition generated_files (d : string) (api : APIDefinition.t)
    (tests : list string) : list string :=
  [ d; filepath_Join d "contexts.go"; filepath_Join d "controllers.go" ]
    ++ (if security_enabled api then [filepath_Join d "security.go"] else [])
    ++ [ filepath_Join d "hrefs.go"; filepath_Join d "media_types.go";
         filepath_Join d "user_types.go" ]
    ++ tests.

Lemma generation_files api s fs1 files s2 :
  sequence (generation_steps (gen s) (design_Design s) api)
    (started s fs1 None [outDir (gen s)])
  = (Returned (files, None), s2) →
  ∃ tests,
    files = generated_files (outDir (gen s)) api tests ∧
    (notest (gen s) = true → tests = []) ∧
    genfiles (gen s2) = files.
Proof.
  intros Hseq.
  destruct (generation_run api s fs1)
    as (evs & l & _ & _ & Hg & _ & Hok & _ & _).
  rewrite Hseq in Hg, Hok. cbn [fst snd] in *.
  destruct (Hok _ eq_refl) as (-> & (ls & -> & Hls) & _).
  unfold generation_steps in Hls.
  repeat match goal with
         | H : Forall2 _ (_ :: _) _ |- _ =>
             apply Forall2_cons_inv_l in H as (? & ? & ? & H & ->)
         | H : Forall2 _ [] _ |- _ => apply Forall2_nil_inv_l in H as ->
         end.
  cbn [step_files] in *. subst.
  eexists. split_and!; [|eassumption|done].
  rewrite Hg. unfold generated_files. cbn [concat]. rewrite app_nil_r.
  reflexivity.
Qed.

(** A run on a non-nil API logs at least the start of [utils.Catch]. *)
Lemma Generate_starts_Catch api s :
  ∃ evs,
    trace (Generate (Some api) s).2 = trace s ++ (utils_Catch, None) :: evs.
Proof.
  rewrite Generate_unfold.
  destruct (os_MkdirAll _ _) as [fs1 [e1|]]; cbn [run_deferred snd].
  - destruct (genfiles (gen s)) as [|f0 files0] eqn:Hfiles.
    + rewrite Cleanup_noop by done. by eexists.
    + rewrite Cleanup_run by (cbn; congruence). cbn.
      rewrite <- app_assoc. by eexists.
  - destruct (generation_run api s fs1) as (evs & l & _ & Htr & Hg & _).
    destruct (sequence _ _) as [[[files [e|]]|e] s2];
      cbn [run_deferred fst snd] in *.
    + rewrite Cleanup_run by (by rewrite Hg). cbn [snd trace].
      rewrite Htr. cbn [started trace]. rewrite <- !app_assoc. by eexists.
    + rewrite Htr. cbn [started trace]. rewrite <- !app_assoc. by eexists.
    + rewrite Htr. cbn [started trace]. rewrite <- !app_assoc. by eexists.
Qed.

(** ** The calls of a run *)

(** The calls to the operating system made by [Generate]. *)
Definition os_calls (d : string) (c : Call) : Prop :=
  c = utils_Catch ∨ c = RemoveAll d ∨ c = MkdirAll d.

(** The calls of the seven steps. *)
Definition step_calls_of (g : Generator) (design : option APIDefinition.t)
    (api : APIDefinition.t) (c : Call) : Prop :=
  contexts_calls (outDir g) (target g) api c ∨
  controllers_calls (outDir g) (target g) api c ∨
  security_calls (outDir g) design c ∨
  hrefs_calls (outDir g) api c ∨
  mediaTypes_calls (outDir g) api c ∨
  userTypes_calls (outDir g) api c ∨
  resourceTest_calls api c.

Lemma generation_steps_calls g design api st c :
  st ∈ generation_steps g design api → step_calls st c →
  step_calls_of g design api c.
Proof.
  unfold generation_steps, step_calls_of. intros Hin.
  repeat (apply elem_of_cons in Hin as [->|Hin]; [cbn; try tauto|]).
  - destruct (security_enabled api); [tauto|done].
  - destruct (notest g); [done|tauto].
  - by apply elem_of_nil in Hin.
Qed.

(** Every call of a run of [Generate] is a call to the operating system on
    the output directory or a call of one of the steps. *)
Lemma Generate_calls api s :
  ∃ evs,
    trace (Generate (Some api) s).2 = trace s ++ evs ∧
    Forall (λ ev, os_calls (outDir (gen s)) ev.1 ∨
                  step_calls_of (gen s) (design_Design s) api ev.1) evs.
Proof.
  rewrite Generate_unfold.
  assert (∀ r : option error,
            Forall (λ ev : Call * option error,
                      os_calls (outDir (gen s)) ev.1 ∨
                      step_calls_of (gen s) (design_Design s) api ev.1)
              [ (utils_Catch, None); (RemoveAll (outDir (gen s)), None);
                (MkdirAll (outDir (gen s)), r) ]) as Hos.
  { intros r.
    repeat (apply Forall_cons; split; [left; unfold os_calls; cbn; tauto|]).
    apply Forall_nil_2. }
  destruct (os_MkdirAll _ _) as [fs1 [e1|]] eqn:Hmk; cbn [run_deferred snd].
  - destruct (genfiles (gen s)) as [|f0 files0] eqn:Hfiles.
    + rewrite Cleanup_noop by done. eexists. split; [reflexivity|apply Hos].
    + rewrite Cleanup_run by (cbn; congruence). cbn.
      eexists. rewrite <- app_assoc. split; [reflexivity|].
      apply Forall_app. split; [apply Hos|].
      apply Forall_cons. split; [|apply Forall_nil_2].
      left. unfold os_calls. cbn. tauto.
  - destruct (generation_run api s fs1)
      as (evs & l & Hcfg & Htr & Hg & (Hall & _) & _).
    assert (Forall (λ ev : Call * option error,
                      os_calls (outDir (gen s)) ev.1 ∨
                      step_calls_of (gen s) (design_Design s) api ev.1) evs)
      as Hsteps.
    { eapply Forall_impl; [exact Hall|]. intros ev (st & Hin & Hc).
      right. by eapply generation_steps_calls. }
    destruct (sequence _ _) as [[[files [e|]]|e] s2] eqn:Hseq;
      cbn [run_deferred fst snd] in *.
    + rewrite Cleanup_run by (by rewrite Hg). cbn [snd trace].
      rewrite Htr. cbn [started trace]. rewrite <- !app_assoc.
      eexists. split; [reflexivity|].
      repeat (apply Forall_app; split); [apply Hos|done|].
      apply Forall_cons. split; [|apply Forall_nil_2].
      left. unfold os_calls. destruct Hcfg as (-> & _). cbn. tauto.
    + rewrite Htr. cbn [started trace]. rewrite <- !app_assoc.
      eexists. split; [reflexivity|]. by apply Forall_app.
    + rewrite Htr. cbn [started trace]. rewrite <- !app_assoc.
      eexists. split; [reflexivity|]. by apply Forall_app.
Qed.

Ltac invert_step_call H :=
  unfold step_calls_of, contexts_calls, controllers_calls, security_calls,
    hrefs_calls, mediaTypes_calls, userTypes_calls, resourceTest_calls,
    writer_calls, is_WriteHeader in H;
  repeat destruct H as [H|H]; try done;
  destruct H as (? & ? & H); simplify_eq;
  repeat destruct H as [H|H]; try done;
  repeat match type of H with
         | ex _ => destruct H as [? H]
         | _ ∧ _ => destruct H as [? H]
         end;
  simplify_eq; eauto 6.

(** A call among the calls of the steps that executes a context is the one
    made for an action of a resource of the API. *)
Lemma step_calls_ExecuteContext g design api w f data :
  step_calls_of g design api (WriterOp w f (ExecuteContext data)) →
  ∃ r a, r ∈ IterateResources_order api ∧ a ∈ IterateActions_order r ∧
         data = ctxData (target g) api r a.
Proof.
  intros H. invert_step_call H.
Qed.


Lemma step_calls_ExecuteControllers g design api w f data :
  step_calls_of g design api (WriterOp w f (ExecuteControllers data)) →
  data = controllersData api
           (BuildEncoders (APIDefinition.Produces api) true).1
           (BuildEncoders (APIDefinition.Consumes api) false).1.
Proof.
  intros H. invert_step_call H.
Qed.

Lemma step_calls_ExecuteMediaType g design api w f mt :
  step_calls_of g design api (WriterOp w f (ExecuteMediaType mt)) →
  mt ∈ IterateMediaTypes_order api ∧ emitted mt = true.
Proof.
  intros H. invert_step_call H.
Qed.


(** ** The units of the media-type writer *)

(** The media types on which the media-type writer was executed, in the
    order of the calls. *)
Definition executed_media_types (evs : list (Call * option error))
  : list MediaTypeDefinition.t :=
  omap (λ ev, match ev.1 with
              | WriterOp MediaTypesWriter _ (ExecuteMediaType mt) => Some mt
              | _ => None
              end) evs.

Lemma mediaTypeIterator_skip f mt s :
  emitted mt = false → mediaTypeIterator f mt s = (Returned None, s).
Proof.
  unfold emitted, mediaTypeIterator.
  destruct (IsBuiltIn mt); [done|]. cbn. by intros ->.
Qed.

Lemma mediaTypeIterator_emit f mt s :
  emitted mt = true →
  mediaTypeIterator f mt s
  = call_writer MediaTypesWriter f (ExecuteMediaType mt) s.
Proof.
  unfold emitted, mediaTypeIterator.
  destruct (IsBuiltIn mt); [done|]. cbn. by intros ->.
Qed.

Lemma iterate_mediaTypes f (l : list MediaTypeDefinition.t) s :
  ∃ evs r fs',
    iterate (mediaTypeIterator f) l s
    = (Returned r, mkState (gen s) fs' (design_Design s) (trace s ++ evs)) ∧
    executed_media_types evs `prefix_of` filter (λ mt, emitted mt = true) l ∧
    (r = None →
     executed_media_types evs = filter (λ mt, emitted mt = true) l).
Proof.
  revert s. induction l as [|mt l IH]; intros s.
  { exists [], None, (fs s). cbn. rewrite app_nil_r.
    split; [by destruct s|]. by split. }
  cbn [iterate]. unfold mbind, M_bind.
  destruct (emitted mt) eqn:Hmt.
  - rewrite mediaTypeIterator_emit by done.
    rewrite filter_cons_True by done.
    destruct (call_writer_run MediaTypesWriter f (ExecuteMediaType mt) s)
      as (r1 & fs1 & -> & _).
    destruct r1 as [e|].
    + eexists [_], (Some e), fs1. split; [reflexivity|].
      split; [cbn; apply prefix_cons, prefix_nil|done].
    + destruct (IH (mkState (gen s) fs1 (design_Design s)
                      (trace s ++ [(WriterOp MediaTypesWriter f
                                      (ExecuteMediaType mt), None)])))
        as (evs & r & fs2 & -> & Hpre & Hall).
      eexists (_ :: evs), r, fs2. cbn [gen fs design_Design trace].
      rewrite <- app_assoc.
      split; [reflexivity|].
      change (executed_media_types (?x :: evs))
        with (mt :: executed_media_types evs).
      split.
      * by apply prefix_cons.
      * intros Hr. by rewrite (Hall Hr).
  - rewrite mediaTypeIterator_skip by done.
    rewrite filter_cons_False by (by rewrite Hmt).
    destruct (IH s) as (evs & r & fs2 & -> & Hpre & Hall).
    by exists evs, r, fs2.
Qed.

Lemma generateMediaTypes_units api s :
  let f := filepath_Join (outDir (gen s)) "media_types.go" in
  ∃ r0 evs,
    trace (generateMediaTypes api s).2
    = trace s ++ (WriterOp MediaTypesWriter f New, r0) :: evs ∧
    (r0 = None →
     genfiles (gen (generateMediaTypes api s).2) = genfiles (gen s) ++ [f]) ∧
    executed_media_types evs
      `prefix_of` filter (λ mt, emitted mt = true)
                         (IterateMediaTypes_order api) ∧
    ((generateMediaTypes api s).1 = Returned None →
     executed_media_types evs
     = filter (λ mt, emitted mt = true) (IterateMediaTypes_order api)).
Proof.
  intros f. subst f. unfold generateMediaTypes. unfold_m. run_call.
  destruct r as [e|]; unfold_m.
  { eexists (Some e), []. cbn. split_and!; try done. apply prefix_nil. }
  run_call.
  match goal with
  | |- context [iterate ?it ?l ?s0] =>
      destruct (iterate_mediaTypes
                  (filepath_Join (outDir (gen s)) "media_types.go") l s0)
        as (evs & r1 & fs2 & -> & Hpre & Hall)
  end.
  unfold_m. destruct r1 as [e|]; unfold_m.
  - eexists None, (_ :: evs). cbn. rewrite <- !app_assoc. cbn.
    split_and!; try done.
  - run_call. eexists None, (_ :: evs ++ [_]). cbn.
    rewrite <- !app_assoc. cbn. split_and!; try done.
    + unfold executed_media_types. rewrite omap_app. cbn.
      rewrite app_nil_r. exact Hpre.
    + intros _. unfold executed_media_types. rewrite omap_app. cbn.
      rewrite app_nil_r. by apply Hall.
Qed.
End Runs.

(** * The data handed to the writers *)

Section Data.
Context `{D : Design, R : GoRuntime, P : Platform}.

(** ** Ranging over a map *)

Lemma range_map_NoDup_keys {V} (m : gmap string V) : NoDup (range_map m).*1.
Proof. rewrite (range_map_perm V m). apply NoDup_fst_map_to_list. Qed.

Lemma elem_of_range_map {V} (m : gmap string V) k v :
  (k, v) ∈ range_map m ↔ m !! k = Some v.
Proof. rewrite (range_map_perm V m). apply elem_of_map_to_list. Qed.

(** ** The responses of a context *)

Definition keep_non101 (acc : gmap string ResponseDefinition.t)
    (kv : string * ResponseDefinition.t) : gmap string ResponseDefinition.t :=
  if decide (ResponseDefinition.Status kv.2 ≠ 101)
  then <[kv.1 := kv.2]> acc else acc.

Lemma foldl_keep_non101 (l : list (string * ResponseDefinition.t)) k v :
  NoDup l.*1 →
  foldl keep_non101 ∅ l !! k = Some v
  ↔ (k, v) ∈ l ∧ ResponseDefinition.Status v ≠ 101.
Proof.
  induction l as [|[k0 v0] l IH] using rev_ind; intros Hnd.
  { cbn. rewrite lookup_empty. split; [done|]. intros [Hin _].
    by apply elem_of_nil in Hin. }
  rewrite fmap_app in Hnd. apply NoDup_app in Hnd as (Hnd & Hfresh & _).
  assert (k0 ∉ l.*1) as Hk0.
  { intros Hin. apply (Hfresh k0 Hin). cbn. apply list_elem_of_here. }
  rewrite foldl_snoc, elem_of_app, list_elem_of_singleton.
  unfold keep_non101 at 1. cbn [fst snd].
  destruct (decide (ResponseDefinition.Status v0 ≠ 101)) as [Hs|Hs].
  - destruct (decide (k = k0)) as [->|Hne].
    + rewrite lookup_insert_eq. split.
      * intros [= ->]. split; [by right|done].
      * intros [[Hin|[= ->]] _]; [|done].
        exfalso. apply Hk0. apply list_elem_of_fmap. by exists (k0, v).
    + rewrite lookup_insert_ne by done. rewrite (IH Hnd). split.
      * intros [Hin Hv]. split; [by left|done].
      * intros [[Hin|[= -> ->]] Hv]; [done|done].
  - rewrite (IH Hnd). split.
    + intros [Hin Hv]. split; [by left|done].
    + intros [[Hin|[= -> ->]] Hv]; [done|done].
Qed.

Lemma non101_filter (responses : gmap string ResponseDefinition.t) :
  non101 responses
  = filter (λ kv, ResponseDefinition.Status kv.2 ≠ 101) responses.
Proof.
  apply map_eq. intros k. apply option_eq. intros v.
  unfold non101. fold keep_non101.
  rewrite foldl_keep_non101 by apply range_map_NoDup_keys.
  rewrite elem_of_range_map. by rewrite map_lookup_filter_Some.
Qed.

(** ** The imports of the controllers *)

Definition goa_path : string := "github.com/goadesign/goa".

Lemma foldl_collect (l : list (string * bool)) (acc : list string) :
  foldl (λ acc kv, if decide (kv.1 ≠ goa_path) then acc ++ [kv.1] else acc)
        acc l
  = acc ++ filter (λ p, p ≠ goa_path) l.*1.
Proof.
  revert acc. induction l as [|[p b] l IH]; intros acc.
  { cbn. by rewrite app_nil_r. }
  cbn [foldl fmap list_fmap fst].
  rewrite IH. destruct (decide (p ≠ goa_path)) as [Hp|Hp].
  - rewrite filter_cons_True by done. by rewrite <- app_assoc.
  - by rewrite filter_cons_False by done.
Qed.

Lemma packagePaths_eq encoders decoders :
  packagePaths encoders decoders
  = sort_Strings
      (filter (λ p, p ≠ goa_path)
              (range_map (encoderImports encoders decoders)).*1).
Proof. unfold packagePaths. f_equal. apply (foldl_collect _ []). Qed.

Lemma encoderImports_lookup (l : list EncoderTemplateData.t)
    (m : gmap string bool) p :
  is_Some
    (foldl (λ m data, <[EncoderTemplateData.PackagePath data := true]> m) m l
     !! p)
  ↔ is_Some (m !! p) ∨
    ∃ data, data ∈ l ∧ EncoderTemplateData.PackagePath data = p.
Proof.
  revert m. induction l as [|x l IH]; intros m; cbn.
  { split; [by left|]. intros [?|(? & Hin & _)]; [done|].
    by apply elem_of_nil in Hin. }
  rewrite IH, lookup_insert_is_Some. split.
  - intros [[Hx|[_ Hm]]|(data & Hin & Hp)].
    + right. exists x. split; [apply list_elem_of_here|done].
    + by left.
    + right. exists data. split; [by apply list_elem_of_further|done].
  - intros [Hm|(data & Hin & Hp)].
    + destruct (decide (EncoderTemplateData.PackagePath x = p)); eauto.
    + apply elem_of_cons in Hin as [->|Hin]; eauto.
Qed.

Lemma elem_of_packagePaths encoders decoders p :
  p ∈ packagePaths encoders decoders
  ↔ p ≠ goa_path ∧
    ∃ data, data ∈ encoders ++ decoders ∧
            EncoderTemplateData.PackagePath data = p.
Proof.
  rewrite packagePaths_eq. unfold sort_Strings.
  rewrite merge_sort_Permutation, list_elem_of_filter.
  rewrite (range_map_perm bool). 
  assert (p ∈ (map_to_list (encoderImports encoders decoders)).*1
          ↔ is_Some (encoderImports encoders decoders !! p)) as ->.
  { rewrite list_elem_of_fmap. split.
    - intros ([k b] & -> & Hin). apply elem_of_map_to_list in Hin. eauto.
    - intros [b Hb]. exists (p, b). split; [done|].
      by apply elem_of_map_to_list. }
  unfold encoderImports. rewrite !encoderImports_lookup, lookup_empty.
  split; intros [Hp Hin]; (split; [done|]).
  - destruct Hin as [[[? [=]]|(data & Hin & Hd)]|(data & Hin & Hd)];
      exists data; (split; [|done]); apply elem_of_app; eauto.
  - destruct Hin as (data & Hin & Hd).
    apply elem_of_app in Hin as [Hin|Hin]; eauto.
Qed.

Lemma packagePaths_NoDup encoders decoders :
  NoDup (packagePaths encoders decoders).
Proof.
  rewrite packagePaths_eq. unfold sort_Strings.
  rewrite merge_sort_Permutation. apply NoDup_filter, range_map_NoDup_keys.
Qed.

Lemma packagePaths_Sorted encoders decoders :
  StronglySorted String.le (packagePaths encoders decoders).
Proof.
  rewrite packagePaths_eq. unfold sort_Strings.
  apply StronglySorted_merge_sort; apply _.
Qed.

Lemma controllersImports_eq encoders decoders :
  controllersImports encoders decoders
  = [ SimpleImport "net/http";
      SimpleImport "fmt";
      SimpleImport "golang.org/x/net/context";
      SimpleImport "github.com/goadesign/goa";
      SimpleImport "github.com/goadesign/goa/cors" ]
    ++ (SimpleImport <$> packagePaths encoders decoders).
Proof.
  unfold controllersImports. generalize (packagePaths encoders decoders).
  intros l. generalize [ SimpleImport "net/http";
      SimpleImport "fmt";
      SimpleImport "golang.org/x/net/context";
      SimpleImport "github.com/goadesign/goa";
      SimpleImport "github.com/goadesign/goa/cors" ].
  induction l as [|p l IH]; intros base; cbn.
  - by rewrite app_nil_r.
  - rewrite IH. by rewrite <- app_assoc.
Qed.
End Data.

(** * Properties of the generator *)

Section Properties.
Context `{D : Design, R : GoRuntime, P : Platform}.


(** C2.  A run of [Generate] on a non-nil API starts [utils.Catch], removes
    the output directory and creates it again, and only then calls the
    writers.  The calls to the writers come artifact by artifact in the
    order contexts, controllers, security, hrefs, media types, user types,
    resource tests; the security artifact appears only when a security
    scheme is declared and the resource tests only when they are not
    disabled; a call for an artifact is made only after every enabled
    earlier artifact was completed without error; and a run that returns
    no error has completed every enabled artifact. *)
Theorem Generate_order api s :
  let d := outDir (gen s) in
  let made := os_MkdirAll d (os_RemoveAll d (fs s)) in
  ∃ evs,
    trace (Generate (Some api) s).2
    = trace s ++ [ (utils_Catch, None); (RemoveAll d, None);
                   (MkdirAll d, made.2) ] ++ evs ∧
    (made.2 = None →
       made.1 !! d = Some Dir ∧
       ∀ p, under d p = true → p ≠ d → made.1 !! p = None) ∧
    (is_Some made.2 → artifacts evs = []) ∧
    StronglySorted (λ a b, rank a ≤ rank b)%nat (artifacts evs) ∧
    (∀ k, k ∈ artifacts evs → artifact_enabled (gen s) api k = true) ∧
    (∀ ev k k',
       ev ∈ evs → artifact_of ev.1 = Some k →
       artifact_enabled (gen s) api k' = true →
       (rank k' < rank k)%nat → completed k' evs) ∧
    (∀ files, (Generate (Some api) s).1 = Returned (files, None) →
       ∀ k, artifact_enabled (gen s) api k = true → completed k evs).
Proof.
  intros d made. subst d made. rewrite Generate_unfold.
  destruct (os_MkdirAll _ _) as [fs1 [e1|]] eqn:Hmk; cbn [fst snd].
  - (* the directory could not be created: no writer is called *)
    cbn [run_deferred fst snd].
    destruct (genfiles (gen s)) as [|f0 files0] eqn:Hfiles.
    + rewrite Cleanup_noop by done. exists []. cbn.
      split_and!; try done; try constructor.
      * intros k Hk. by apply elem_of_nil in Hk.
      * intros ev ? ? Hev. by apply elem_of_nil in Hev.
    + rewrite Cleanup_run by (cbn; congruence). cbn.
      exists [(RemoveAll (outDir (gen s)), None)]. cbn.
      rewrite <- app_assoc. cbn.
      split_and!; try done; try constructor.
      * intros k Hk. by apply elem_of_nil in Hk.
      * intros ev k k' Hev Hk. apply list_elem_of_singleton in Hev as ->.
        done.
  - (* the steps run *)
    destruct (os_recreate _ _ _ Hmk) as [Hdir Hempty].
    destruct (generation_run api s fs1)
      as (evs & l & Hcfg & Htr & Hg & (Hall & Hsort & Hprec) & Hok & _ & _).
    set (steps := generation_steps (gen s) (design_Design s) api) in *.
    assert (∀ k, k ∈ artifacts evs → artifact_enabled (gen s) api k = true)
      as Hen.
    { intros k Hk. apply elem_of_artifacts in Hk as (ev & Hev & Hk).
      rewrite Forall_forall in Hall.
      destruct (Hall _ Hev) as (st & Hin & Hcall).
      pose proof (generation_steps_sound
                    (started s fs1 None [outDir (gen s)]) api) as Hsound.
      rewrite Forall_forall in Hsound.
      destruct (Hsound st Hin) as [Hart _].
      destruct (Hart _ Hcall) as [Hk' Hen].
      rewrite (generation_steps_enabled _ _ _ _ Hin) in Hen. congruence. }
    assert (∀ ev k k',
              ev ∈ evs → artifact_of ev.1 = Some k →
              artifact_enabled (gen s) api k' = true →
              (rank k' < rank k)%nat → completed k' evs) as Hprec'.
    { intros ev k k' Hev Hk Hen' Hrank.
      destruct (generation_steps_artifact (gen s) (design_Design s) api k')
        as (st & Hin & <-).
      eapply Hprec; eauto.
      by rewrite (generation_steps_enabled _ _ _ _ Hin). }
    destruct (sequence steps _) as [[[files [e|]]|e] s2] eqn:Hseq;
      cbn [run_deferred fst snd] in *.
    + (* a step failed: [Cleanup] runs *)
      rewrite Cleanup_run by (by rewrite Hg). cbn [snd trace].
      exists (evs ++ [(RemoveAll (outDir (gen s2)), None)]).
      rewrite artifacts_snoc_os by done.
      split_and!; try done.
      * rewrite Htr. cbn. by rewrite <- !app_assoc.
      * intros ev k k' Hev Hk Hen' Hrank. apply completed_app_l.
        apply elem_of_app in Hev as [Hev|Hev]; [by eapply Hprec'|].
        by apply list_elem_of_singleton in Hev as ->.
    + (* every step returned nil *)
      exists evs. split_and!; try done.
      * rewrite Htr. cbn. by rewrite <- !app_assoc.
      * intros files' [= <-] k Hk.
        destruct (Hok _ eq_refl) as (_ & _ & Hdone).
        destruct (generation_steps_artifact (gen s) (design_Design s) api k)
          as (st & Hin & <-).
        rewrite Forall_forall in Hdone. apply Hdone; [done|].
        by rewrite (generation_steps_enabled _ _ _ _ Hin).
    + (* a step panicked *)
      exists evs. split_and!; try done.
      * rewrite Htr. cbn. by rewrite <- !app_assoc.
Qed.

(** C3.  The file list returned by a successful run: the output directory
    first, then the files of the artifacts in generation order, with their
    fixed names; [security.go] is there exactly when a security scheme is
    declared, and the files of the test generator come last. *)
Theorem Generate_file_list api s files s' :
  Generate (Some api) s = (Returned (files, None), s') →
  let d := outDir (gen s) in
  ∃ tests,
    files
    = [ d; filepath_Join d "contexts.go"; filepath_Join d "controllers.go" ]
      ++ (if security_enabled api then [filepath_Join d "security.go"] else [])
      ++ [ filepath_Join d "hrefs.go"; filepath_Join d "media_types.go";
           filepath_Join d "user_types.go" ]
      ++ tests ∧
    (notest (gen s) = true → tests = []) ∧
    genfiles (gen s') = files.
Proof.
  intros Hgen d. subst d. rewrite Generate_unfold in Hgen.
  destruct (os_MkdirAll _ _) as [fs1 [e1|]] eqn:Hmk.
  { (* the directory could not be created: an error is returned *)
    cbn [run_deferred] in Hgen. discriminate Hgen. }
  destruct (sequence _ _) as [[[files0 [e|]]|e] s2] eqn:Hseq;
    cbn [run_deferred] in Hgen; try discriminate Hgen.
  injection Hgen as <- <-.
  exact (generation_files api s fs1 files0 s2 Hseq).
Qed.

Lemma os_calls_not_writer d w f wc : ¬ os_calls d (WriterOp w f wc).
Proof. by intros [?|[?|?]]. Qed.





(** C7.  For an action [a] of a resource [r] (the parent of [a] is [r]), the
    context identifier is the Goified action name followed by the Goified
    resource name and "Context"; the contexts writer and the controllers
    writer derive the same identifier.  With the casing transform of the
    specification, "get-widget", "get_widget" and "GetWidget" give the same
    identifier. *)
Theorem context_identifier tgt api r a :
  ActionDefinition.Parent_Name a = ResourceDefinition.Name r →
  ContextTemplateData.Name (ctxData tgt api r a)
  = Goify (ActionDefinition.Name a) true
      +:+ Goify (ResourceDefinition.Name r) true +:+ "Context" ∧
  ControllerAction.Context (controllerAction r a)
  = ContextTemplateData.Name (ctxData tgt api r a) ∧
  ((∀ name upper, Goify name upper = Goify_model name upper) →
   ∀ a', ActionDefinition.Parent_Name a' = ResourceDefinition.Name r →
         ActionDefinition.Name a' ∈ ["get-widget"; "get_widget"; "GetWidget"] →
         ContextTemplateData.Name (ctxData tgt api r a')
         = "GetWidget" +:+ Goify_model (ResourceDefinition.Name r) true
             +:+ "Context").
Proof.
  intros Hparent. cbn. unfold ctxName. rewrite Hparent.
  split_and!.
  - by rewrite string_app_assoc.
  - by rewrite string_app_assoc.
  - intros Hgoify a' Hparent' Hname. rewrite Hparent', !Hgoify.
    rewrite <- string_app_assoc.
    repeat (apply elem_of_cons in Hname as [->|Hname]; [done|]).
    by apply elem_of_nil in Hname.
Qed.


(** C9.  With a nil API definition [Generate] returns a nil file list and
    the "missing API definition" error, and nothing has happened: the file
    system is the one before the call (the output directory was neither
    removed nor created), no call was logged (in particular [utils.Catch],
    the cleanup handler, was not started), and the generator is unchanged.
    With a non-nil API the log does grow. *)
Theorem Generate_nil_api s :
  (Generate None s).1
  = Returned
      ([], Some "missing API definition, make sure design is properly initialized") ∧
  fs (Generate None s).2 = fs s ∧
  trace (Generate None s).2 = trace s ∧
  gen (Generate None s).2 = gen s ∧
  ∀ api, trace (Generate (Some api) s).2 ≠ trace s.
Proof.
  split_and!; try reflexivity.
  intros api Heq. destruct (Generate_starts_Catch api s) as (evs & Htr).
  rewrite Htr in Heq. apply (f_equal length) in Heq.
  rewrite length_app in Heq. cbn in Heq. lia.
Qed.

(** C10.  [generateMediaTypes] always starts by creating the writer of
    [media_types.go], and the file is appended to [genfiles] unless that
    creation fails.  The iterator makes no call and returns no error for a
    media type that is built-in or whose type is neither an object nor an
    array; for the others it executes the writer.  The media types
    executed are, in order, those of the registry that are not built-in and
    of object or array type, up to the first failure, and all of them when
    the step returns no error. *)
Theorem generateMediaTypes_emits api s :
  let f := filepath_Join (outDir (gen s)) "media_types.go" in
  (∀ mt,
     emitted mt
     = negb (IsBuiltIn mt) &&
       (IsObject (MediaTypeDefinition.Type_ mt)
        || IsArray (MediaTypeDefinition.Type_ mt))) ∧
  (∀ mt s0, emitted mt = false →
            mediaTypeIterator f mt s0 = (Returned None, s0)) ∧
  (∀ mt s0, emitted mt = true →
            mediaTypeIterator f mt s0
            = call_writer MediaTypesWriter f (ExecuteMediaType mt) s0) ∧
  ∃ r0 evs,
    trace (generateMediaTypes api s).2
    = trace s ++ (WriterOp MediaTypesWriter f New, r0) :: evs ∧
    (r0 = None →
     genfiles (gen (generateMediaTypes api s).2) = genfiles (gen s) ++ [f]) ∧
    executed_media_types evs
      `prefix_of` filter (λ mt, emitted mt = true)
                         (IterateMediaTypes_order api) ∧
    ((generateMediaTypes api s).1 = Returned None →
     executed_media_types evs
     = filter (λ mt, emitted mt = true) (IterateMediaTypes_order api)).
Proof.
  intros f. split_and!.
  - done.
  - intros mt s0. apply mediaTypeIterator_skip.
  - intros mt s0. apply mediaTypeIterator_emit.
  - apply generateMediaTypes_units.
Qed.
End Properties.

(** * Determinism *)

Section Determinism.
Context `{D : Design, P : Platform} (R1 R2 : GoRuntime).

Lemma non101_runtime (responses : gmap string ResponseDefinition.t) :
  @non101 R1 responses = @non101 R2 responses.
Proof. by rewrite !non101_filter. Qed.

Lemma packagePaths_runtime encoders decoders :
  @packagePaths R1 encoders decoders = @packagePaths R2 encoders decoders.
Proof.
  apply (Sorted_unique String.le).
  - apply StronglySorted_Sorted, packagePaths_Sorted.
  - apply StronglySorted_Sorted, packagePaths_Sorted.
  - rewrite !packagePaths_eq. unfold sort_Strings.
    rewrite !merge_sort_Permutation.
    by rewrite (@range_map_perm R1), (@range_map_perm R2).
Qed.

Lemma ctxData_runtime tgt api r a :
  @ctxData D R1 tgt api r a = @ctxData D R2 tgt api r a.
Proof. unfold ctxData. by rewrite non101_runtime. Qed.

Lemma controllersImports_runtime encoders decoders :
  @controllersImports R1 encoders decoders
  = @controllersImports R2 encoders decoders.
Proof. unfold controllersImports. by rewrite packagePaths_runtime. Qed.

Lemma iterate_ext {A} (it1 it2 : A → M (option error)) (l : list A) s :
  (∀ x s, it1 x s = it2 x s) → iterate it1 l s = iterate it2 l s.
Proof.
  intros Hext. revert s. induction l as [|x l IH]; intros s; [done|].
  cbn [iterate]. unfold mbind, M_bind. rewrite Hext.
  destruct (it2 x s) as [[[e|]|e] s1]; [done| |done]. apply IH.
Qed.

Lemma generateContexts_runtime api s :
  @generateContexts D R1 P api s = @generateContexts D R2 P api s.
Proof.
  unfold generateContexts, mbind, M_bind, get_g.
  destruct (NewWriter _ _ _) as [[[]|e] s1]; [|done].
  destruct (append_genfiles _ _) as [[[]|e] s2]; [|done].
  destruct (call_writer _ _ _ s2) as [[r|e] s3]; [|done].
  rewrite (iterate_ext _
    (λ r, iterate (λ a, call_writer ContextsWriter
                         (filepath_Join (outDir (gen s)) "contexts.go")
                         (ExecuteContext (@ctxData D R2 (target (gen s)) api r a)))
            (IterateActions_order r))); [done|].
  intros r' s'. apply iterate_ext. intros a s''. by rewrite ctxData_runtime.
Qed.

Lemma generateControllers_runtime api s :
  @generateControllers D R1 P api s = @generateControllers D R2 P api s.
Proof.
  unfold generateControllers, mbind, M_bind, get_g.
  destruct (NewWriter _ _ _) as [[[]|e] s1]; [|done].
  destruct (BuildEncoders _ true) as [encoders [e|]]; [done|].
  destruct (BuildEncoders _ false) as [decoders [e|]]; [done|].
  by rewrite controllersImports_runtime.
Qed.

Lemma sequence_ext (steps1 steps2 : list Step) s :
  Forall2 (λ a b, ∀ s, step_run a s = step_run b s) steps1 steps2 →
  sequence steps1 s = sequence steps2 s.
Proof.
  intros Hsteps. revert s.
  induction Hsteps as [|a b l1 l2 Hab _ IH]; intros s; [done|].
  rewrite !sequence_cons, Hab.
  destruct (step_run b s) as [[[e|]|e] s1]; [done| |done]. apply IH.
Qed.

(** C4.  [Generate] is deterministic: its result, the file system it
    leaves and the calls it makes are the same whatever order the runtime
    picks when the generator ranges over a map. *)
Theorem Generate_deterministic api s :
  @Generate D R1 P api s = @Generate D R2 P api s.
Proof.
  destruct api as [api|]; [|done].
  rewrite !Generate_unfold.
  destruct (os_MkdirAll _ _) as [fs1 [e|]]; [done|].
  f_equal. apply sequence_ext. unfold generation_steps.
  repeat (apply Forall2_cons; split); try apply Forall2_nil_2;
    cbn [step_run]; try done.
  - apply generateContexts_runtime.
  - apply generateControllers_runtime.
Qed.
End Determinism.

(** * The generator on the sample design *)

Example sample_files :
  (@Generate Sample.design Sample.runtime Sample.platform
     (Some Sample.widget_api) (Sample.initial Sample.widget_api)).1
  = Returned
      ([ "out/app"; "out/app/contexts.go"; "out/app/controllers.go";
         "out/app/hrefs.go"; "out/app/media_types.go";
         "out/app/user_types.go" ], None).
Proof. vm_compute. reflexivity. Qed.

(** The stale file of the earlier run is gone after a successful run. *)
Example sample_rebuild :
  fs (@Generate Sample.design Sample.runtime Sample.platform
        (Some Sample.widget_api) (Sample.initial Sample.widget_api)).2
    !! "out/app/stale.go" = None.
Proof. vm_compute. reflexivity. Qed.

(** Only the response "ok" is handed to the contexts writer; the 101
    response "switch" is not. *)
Example sample_non101 :
  map_to_list
    (@non101 Sample.runtime_rev
       (ActionDefinition.Responses Sample.get_action))
  = [("ok", Sample.ok_response)].
Proof. vm_compute. reflexivity. Qed.

(** The media type of primitive type is skipped. *)
Example sample_media_types :
  executed_media_types
    (trace (@Generate Sample.design Sample.runtime Sample.platform
              (Some Sample.widget_api) (Sample.initial Sample.widget_api)).2)
  = [Sample.widget_media_type].
Proof. vm_compute. reflexivity. Qed.

Example sample_packagePaths :
  @packagePaths Sample.runtime_rev
    (@BuildEncoders Sample.design
       (APIDefinition.Produces Sample.widget_api) true).1
    (@BuildEncoders Sample.design
       (APIDefinition.Consumes Sample.widget_api) false).1
  = ["encoding/json"; "encoding/xml"].
Proof. vm_compute. reflexivity. Qed.

(** When the constructor of a writer fails the generator panics; the
    deferred function sees a nil [err], [Cleanup] does not run, and the
    output directory keeps the file written before. *)
Example sample_constructor_failure :
  let r := @Generate Sample.design Sample.runtime Sample.broken_platform
             (Some Sample.widget_api) (Sample.initial Sample.widget_api) in
  r.1 = Panicked "controllers.go: cannot create" ∧
  is_Some (fs r.2 !! "out/app/contexts.go") ∧
  genfiles (gen r.2) = ["out/app"; "out/app/contexts.go"].
Proof. vm_compute. split_and!; [reflexivity|by eexists|reflexivity]. Qed.

(** * The properties on the sample design *)


(** The file list of a successful run on the sample platform. *)
Lemma Generate_file_list_witness :
  let s := Sample.initial Sample.widget_api in
  let r := @Generate Sample.design Sample.runtime Sample.platform
             (Some Sample.widget_api) s in
  let files :=
    [ "out/app"; "out/app/contexts.go"; "out/app/controllers.go";
      "out/app/hrefs.go"; "out/app/media_types.go"; "out/app/user_types.go" ] in
  r = (Returned (files, None), r.2) ∧
  (let d := outDir (gen s) in
   ∃ tests,
     files
     = [ d; filepath_Join d "contexts.go"; filepath_Join d "controllers.go" ]
       ++ (if @security_enabled Sample.widget_api
           then [filepath_Join d "security.go"] else [])
       ++ [ filepath_Join d "hrefs.go"; filepath_Join d "media_types.go";
            filepath_Join d "user_types.go" ]
       ++ tests ∧
     (notest (gen s) = true → tests = []) ∧
     genfiles (gen r.2) = files).
Proof.
  intros s r files.
  assert (r = (Returned (files, None), r.2)) as Hrun
    by (vm_compute; reflexivity).
  split; [exact Hrun|].
  exact (@Generate_file_list Sample.design Sample.runtime Sample.platform
           Sample.widget_api s files r.2 Hrun).
Defined.





(** The action "get" of the resource "Widget". *)
Lemma context_identifier_witness :
  let r := Sample.widget_resource in
  let a := Sample.get_action in
  let api := Sample.widget_api in
  ActionDefinition.Parent_Name a = ResourceDefinition.Name r ∧
  (ContextTemplateData.Name
     (@ctxData Sample.design Sample.runtime "app" api r a)
   = @Goify Sample.design (ActionDefinition.Name a) true
       +:+ @Goify Sample.design (ResourceDefinition.Name r) true +:+ "Context" ∧
   ControllerAction.Context (@controllerAction Sample.design r a)
   = ContextTemplateData.Name
       (@ctxData Sample.design Sample.runtime "app" api r a) ∧
   ((∀ name upper, @Goify Sample.design name upper = Goify_model name upper) →
    ∀ a', ActionDefinition.Parent_Name a' = ResourceDefinition.Name r →
          ActionDefinition.Name a' ∈ ["get-widget"; "get_widget"; "GetWidget"] →
          ContextTemplateData.Name
            (@ctxData Sample.design Sample.runtime "app" api r a')
          = "GetWidget" +:+ Goify_model (ResourceDefinition.Name r) true
              +:+ "Context")).
Proof.
  intros r a api.
  assert (ActionDefinition.Parent_Name a = ResourceDefinition.Name r) as Hparent
    by reflexivity.
  split; [exact Hparent|].
  exact (@context_identifier Sample.design Sample.runtime "app" api r a Hparent).
Defined.

(** * The log of each step, call by call *)

(** The log of an iteration that makes the call [call x] on each element it
    visits: the calls on the elements in order, each returning [nil], up to
    and including the first one that fails. *)
Inductive iteration_log {A} (call : A → Call) (l : list A)
  : option error → list (Call * option error) → Prop :=
  | iteration_done :
      iteration_log call l None ((λ x, (call x, None)) <$> l)
  | iteration_stopped l1 x l2 e :
      l = l1 ++ x :: l2 →
      iteration_log call l (Some e)
        (((λ y, (call y, None)) <$> l1) ++ [(call x, Some e)]).

(** The log of a step that writes one file with the writer [w]: the
    constructor, the header, one unit per element of [l], then [FormatCode].
    The step panics when the constructor fails, stops at the first unit that
    fails, and otherwise returns what [FormatCode] returns; what the header
    returns is not looked at. *)
Inductive file_log {A} (w : Writer) (f : string) (header : WriterCall)
    (unit_call : A → WriterCall) (l : list A)
  : Outcome (option error) → list (Call * option error) → Prop :=
  | constructor_failed e :
      file_log w f header unit_call l (Panicked e) [(WriterOp w f New, Some e)]
  | unit_failed rh e units :
      iteration_log (λ x, WriterOp w f (unit_call x)) l (Some e) units →
      file_log w f header unit_call l (Returned (Some e))
        ([(WriterOp w f New, None); (WriterOp w f header, rh)] ++ units)
  | units_done rh rf :
      file_log w f header unit_call l (Returned rf)
        ([(WriterOp w f New, None); (WriterOp w f header, rh)]
           ++ ((λ x, (WriterOp w f (unit_call x), None)) <$> l)
           ++ [(WriterOp w f FormatCode, rf)]).

(** [genfiles] after a step that registers the file [f]: unchanged when
    the step panicked, with [f] appended otherwise. *)
Definition registered {A} (r : Outcome A) (files : list string) (f : string)
  : list string :=
  match r with
  | Panicked _ => files
  | Returned _ => files ++ [f]
  end.

Section Units.
Context `{D : Design, R : GoRuntime, P : Platform}.

Lemma iterate_app {A} (it : A → M (option error)) (l1 l2 : list A) s :
  iterate it (l1 ++ l2) s
  = match iterate it l1 s with
    | (Returned None, s1) => iterate it l2 s1
    | r => r
    end.
Proof.
  revert s. induction l1 as [|x l1 IH]; intros s; [done|].
  cbn [app iterate]. unfold mbind, M_bind.
  destruct (it x s) as [[[e|]|e] s1]; [done| |done]. apply IH.
Qed.

Lemma iterate_fmap {A B} (g : A → B) (it : B → M (option error))
    (l : list A) s :
  iterate it (g <$> l) s = iterate (λ x, it (g x)) l s.
Proof.
  revert s. induction l as [|x l IH]; intros s; [done|].
  cbn [fmap list_fmap iterate]. unfold mbind, M_bind.
  destruct (it (g x) s) as [[[e|]|e] s1]; [done| |done]. apply IH.
Qed.

(** The pairs visited by an iteration nested in another. *)
Definition nested {A B} (inner : A → list B) (l : list A) : list (A * B) :=
  x ← l; pair x <$> inner x.

Lemma iterate_nested {A B} (it : A → B → M (option error))
    (inner : A → list B) (l : list A) s :
  iterate (λ x, iterate (it x) (inner x)) l s
  = iterate (λ p, it p.1 p.2) (nested inner l) s.
Proof.
  revert s. induction l as [|x l IH]; intros s; [done|].
  unfold nested. cbn [mbind list_bind]. rewrite iterate_app, iterate_fmap.
  cbn [iterate fst snd]. unfold mbind at 1, M_bind at 1.
  destruct (iterate (it x) (inner x) s) as [[[e|]|e] s1]; [done| |done].
  apply IH.
Qed.

(** An iterator that skips the elements outside [keep] visits the elements
    in [keep]. *)
Lemma iterate_filter {A} (keep : A → bool) (it it' : A → M (option error))
    (l : list A) s :
  (∀ x s, keep x = false → it x s = (Returned None, s)) →
  (∀ x s, keep x = true → it x s = it' x s) →
  iterate it l s = iterate it' (filter (λ x, keep x = true) l) s.
Proof.
  intros Hskip Hkeep. revert s. induction l as [|x l IH]; intros s; [done|].
  destruct (keep x) eqn:Hx.
  - rewrite filter_cons_True by done. cbn [iterate]. unfold mbind, M_bind.
    rewrite Hkeep by done.
    destruct (it' x s) as [[[e|]|e] s1]; [done| |done]. apply IH.
  - rewrite filter_cons_False by (by rewrite Hx). cbn [iterate].
    unfold mbind, M_bind. rewrite Hskip by done. apply IH.
Qed.

Lemma iterate_call_writer {A} w f (mk : A → WriterCall) (l : list A) s :
  ∃ evs r fs',
    iterate (λ x, call_writer w f (mk x)) l s
    = (Returned r, mkState (gen s) fs' (design_Design s) (trace s ++ evs)) ∧
    iteration_log (λ x, WriterOp w f (mk x)) l r evs.
Proof.
  revert s. induction l as [|x l IH]; intros s.
  { exists [], None, (fs s). cbn. rewrite app_nil_r.
    split; [by destruct s|].
    apply (iteration_done (λ x, WriterOp w f (mk x)) []). }
  cbn [iterate]. unfold mbind, M_bind.
  destruct (call_writer_run w f (mk x) s) as (r1 & fs1 & -> & _).
  destruct r1 as [e|].
  - exists [(WriterOp w f (mk x), Some e)], (Some e), fs1.
    split; [done|].
    by apply (iteration_stopped (λ x, WriterOp w f (mk x)) (x :: l) [] x l e).
  - destruct (IH (mkState (gen s) fs1 (design_Design s)
                    (trace s ++ [(WriterOp w f (mk x), None)])))
      as (evs & r & fs2 & -> & Hlog).
    exists ((WriterOp w f (mk x), None) :: evs), r, fs2.
    cbn [gen fs design_Design trace]. rewrite <- app_assoc.
    split; [done|].
    destruct Hlog as [|l1 y l2 e ->].
    + apply (iteration_done (λ x, WriterOp w f (mk x)) (x :: l)).
    + by apply (iteration_stopped (λ x, WriterOp w f (mk x))
                  (x :: l1 ++ y :: l2) (x :: l1) y l2 e).
Qed.

Ltac unfold_m :=
  repeat (unfold mbind, M_bind, mret, M_ret, NewWriter, get_g, check, panic,
            append_genfiles, set_genfiles, get_Design;
          cbn beta iota zeta delta [fst snd gen fs design_Design trace
            genfiles outDir target notest]).

Ltac run_call :=
  match goal with
  | |- context [call_writer ?w ?f ?c ?s] =>
      let r := fresh "r" in
      let fs' := fresh "fs" in
      let E := fresh "E" in
      destruct (call_writer_run w f c s) as (r & fs' & E & _);
      rewrite E; clear E; unfold_m
  end.

Ltac run_units :=
  match goal with
  | |- context [iterate (λ x, call_writer ?w ?f (@?mk x)) ?l ?s] =>
      let evs := fresh "units" in
      let r := fresh "ru" in
      let fs' := fresh "fs" in
      let E := fresh "E" in
      let H := fresh "Hunits" in
      destruct (iterate_call_writer w f mk l s) as (evs & r & fs' & E & H);
      cbn beta in E; rewrite E; clear E; unfold_m
  end.

(** Closes the goal once the run is explicit: the log, its shape, and
    [genfiles]. *)
Ltac file_logged :=
  eexists; split_and!;
  [ cbn [trace]; rewrite <- ?app_assoc; reflexivity
  | first [ apply constructor_failed
          | by apply unit_failed
          | apply units_done ]
  | reflexivity ].

(** X1.  [generateHrefs] creates the writer of [hrefs.go], writes the
    header, executes the writer on one unit per resource in the order of
    the iteration, and formats the file.  It panics when the writer cannot
    be created, stops at the first unit that fails and returns its error
    without formatting, and otherwise returns what formatting returns.
    Unless it panicked the file is in [genfiles], also when it returns an
    error.  The unit of a resource carries the media type found under the
    resource's media-type identifier and its identifier, or no media type
    and the identifier "text/plain" when there is none. *)
Theorem generateHrefs_log api s :
  let f := filepath_Join (outDir (gen s)) "hrefs.go" in
  let header :=
    WriteHeader
      (APIDefinition_Context api +:+ ": Application Resource Href Factories")
      (target (gen s)) [SimpleImport "fmt"] in
  let r := generateHrefs api s in
  (∃ evs,
     trace r.2 = trace s ++ evs ∧
     file_log ResourcesWriter f header
       (λ res, ExecuteResource (resourceData api res))
       (IterateResources_order api) r.1 evs ∧
     genfiles (gen r.2) = registered r.1 (genfiles (gen s)) f) ∧
  ∀ res,
    ResourceData.Type_ (resourceData api res)
    = MediaTypeWithIdentifier api (ResourceDefinition.MediaType res) ∧
    ResourceData.Identifier (resourceData api res)
    = from_option MediaTypeDefinition.Identifier "text/plain"
        (MediaTypeWithIdentifier api (ResourceDefinition.MediaType res)).
Proof.
  intros f header r. subst f header r. split; [|done].
  unfold generateHrefs. unfold_m. run_call.
  destruct r as [e|]; unfold_m; [file_logged|].
  run_call. run_units.
  destruct ru as [e|]; unfold_m; [file_logged|].
  run_call. inversion Hunits; subst. file_logged.
Qed.

(** X2.  [generateUserTypes] creates the writer of [user_types.go], writes
    the header, executes the writer on every user type in the order of the
    iteration, and formats the file; it stops at the first user type whose
    unit fails, returning that error without formatting.  Unless the writer
    could not be created (a panic) the file is in [genfiles], also when an
    error is returned. *)
Theorem generateUserTypes_log api s :
  let f := filepath_Join (outDir (gen s)) "user_types.go" in
  let header :=
    WriteHeader (APIDefinition_Context api +:+ ": Application User Types")
      (target (gen s))
      [ SimpleImport "github.com/goadesign/goa"; SimpleImport "fmt";
        SimpleImport "time" ] in
  let r := generateUserTypes api s in
  ∃ evs,
    trace r.2 = trace s ++ evs ∧
    file_log UserTypesWriter f header ExecuteUserType
      (IterateUserTypes_order api) r.1 evs ∧
    genfiles (gen r.2) = registered r.1 (genfiles (gen s)) f.
Proof.
  intros f header r. subst f header r.
  unfold generateUserTypes. unfold_m. run_call.
  destruct r as [e|]; unfold_m; [file_logged|].
  run_call. run_units.
  destruct ru as [e|]; unfold_m; [file_logged|].
  run_call. inversion Hunits; subst. file_logged.
Qed.

(** X3.  [generateContexts] executes the contexts writer on one context
    per action: the resources in the order of their iteration and, for each
    resource, its actions in the order of theirs.  It stops at the first
    context that fails, returning that error without formatting; when all
    succeed it returns what formatting returns.  The file is in [genfiles]
    unless the writer could not be created. *)
Theorem generateContexts_log api s :
  let f := filepath_Join (outDir (gen s)) "contexts.go" in
  let header :=
    WriteHeader (APIDefinition_Context api +:+ ": Application Contexts")
      (target (gen s))
      [ SimpleImport "fmt"; SimpleImport "golang.org/x/net/context";
        SimpleImport "strconv"; SimpleImport "strings"; SimpleImport "time";
        SimpleImport "github.com/goadesign/goa";
        NewImport "uuid" "github.com/satori/go.uuid" ] in
  let r := generateContexts api s in
  ∃ evs,
    trace r.2 = trace s ++ evs ∧
    file_log ContextsWriter f header
      (λ p, ExecuteContext (ctxData (target (gen s)) api p.1 p.2))
      (nested IterateActions_order (IterateResources_order api)) r.1 evs ∧
    genfiles (gen r.2) = registered r.1 (genfiles (gen s)) f.
Proof.
  intros f header r. subst f header r.
  unfold generateContexts. unfold_m. run_call.
  destruct r as [e|]; unfold_m; [file_logged|].
  run_call.
  rewrite (iterate_nested
             (λ res a, call_writer ContextsWriter
                         (filepath_Join (outDir (gen s)) "contexts.go")
                         (ExecuteContext (ctxData (target (gen s)) api res a)))).
  run_units.
  destruct ru as [e|]; unfold_m; [file_logged|].
  run_call. inversion Hunits; subst. file_logged.
Qed.

(** The media types executed by [generateMediaTypes] are those for which a
    unit is emitted. *)
Lemma generateMediaTypes_log api s :
  let f := filepath_Join (outDir (gen s)) "media_types.go" in
  let header :=
    WriteHeader (APIDefinition_Context api +:+ ": Application Media Types")
      (target (gen s))
      [ SimpleImport "github.com/goadesign/goa"; SimpleImport "fmt";
        SimpleImport "time"; NewImport "uuid" "github.com/satori/go.uuid" ] in
  let r := generateMediaTypes api s in
  ∃ evs,
    trace r.2 = trace s ++ evs ∧
    file_log MediaTypesWriter f header ExecuteMediaType
      (filter (λ mt, emitted mt = true) (IterateMediaTypes_order api))
      r.1 evs ∧
    genfiles (gen r.2) = registered r.1 (genfiles (gen s)) f.
Proof.
  intros f header r. subst f header r.
  unfold generateMediaTypes. unfold_m. run_call.
  destruct r as [e|]; unfold_m; [file_logged|].
  run_call.
  rewrite (iterate_filter emitted _
             (λ mt, call_writer MediaTypesWriter
                      (filepath_Join (outDir (gen s)) "media_types.go")
                      (ExecuteMediaType mt)));
    [|intros; by apply mediaTypeIterator_skip
     |intros; by apply mediaTypeIterator_emit].
  run_units.
  destruct ru as [e|]; unfold_m; [file_logged|].
  run_call. inversion Hunits; subst. file_logged.
Qed.

(** X4.  [generateControllers] creates the writer of [controllers.go] and
    only then resolves the encoders of the API.  When the encoders of the
    produced or of the consumed content types cannot be built it returns
    that error at once: the file has been created, but nothing is written
    to it and it is not added to [genfiles].  Otherwise it writes the header
    with the imports of the encoders, the service initialisation, and
    executes the writer once, on the data of all the controllers; the file
    is then in [genfiles] whatever that call returns.  [FormatCode] is
    called only when the execution succeeded, and its result is returned.
    What the header and the service initialisation return is not looked
    at. *)
Theorem generateControllers_log api s :
  let f := filepath_Join (outDir (gen s)) "controllers.go" in
  let produced := BuildEncoders (APIDefinition.Produces api) true in
  let consumed := BuildEncoders (APIDefinition.Consumes api) false in
  let call := WriterOp ControllersWriter f in
  let r := generateControllers api s in
  ∃ r0 evs,
    trace r.2 = trace s ++ (call New, r0) :: evs ∧
    match r0, produced.2, consumed.2 with
    | Some e, _, _ =>
        r.1 = Panicked e ∧ evs = [] ∧ genfiles (gen r.2) = genfiles (gen s)
    | None, Some e, _ | None, None, Some e =>
        r.1 = Returned (Some e) ∧ evs = [] ∧
        genfiles (gen r.2) = genfiles (gen s)
    | None, None, None =>
        ∃ rh ri re tail,
          evs
          = [ (call (WriteHeader
                       (APIDefinition_Context api
                          +:+ ": Application Controllers")
                       (target (gen s))
                       (controllersImports produced.1 consumed.1)), rh);
              (call (WriteInitService produced.1 consumed.1), ri);
              (call (ExecuteControllers
                       (controllersData api produced.1 consumed.1)), re) ]
            ++ tail ∧
          genfiles (gen r.2) = genfiles (gen s) ++ [f] ∧
          match re with
          | Some e => r.1 = Returned (Some e) ∧ tail = []
          | None => ∃ rf, r.1 = Returned rf ∧ tail = [(call FormatCode, rf)]
          end
    end.
Proof.
  intros f produced consumed call r. subst f produced consumed call r.
  unfold generateControllers. unfold_m. run_call.
  destruct r as [e|]; unfold_m.
  { exists (Some e), []. by split_and!. }
  exists None.
  destruct (BuildEncoders (APIDefinition.Produces api) true)
    as [encoders [e|]]; unfold_m.
  { exists []. by split_and!. }
  destruct (BuildEncoders (APIDefinition.Consumes api) false)
    as [decoders [e|]]; unfold_m.
  { exists []. by split_and!. }
  run_call. run_call. run_call.
  destruct r1 as [e|]; unfold_m.
  - eexists. split; [cbn [trace]; rewrite <- !app_assoc; reflexivity|].
    by exists r, r0, (Some e), [].
  - run_call.
    eexists. split; [cbn [trace]; rewrite <- !app_assoc; reflexivity|].
    exists r, r0, None, [(WriterOp ControllersWriter
                            (filepath_Join (outDir (gen s)) "controllers.go")
                            FormatCode, r1)].
    split_and!; [done|done|]. by exists r1.
Qed.

(** X5.  [generateSecurity] does nothing at all when the API declares no
    security scheme: no file is created and the state is unchanged.
    Otherwise it creates [security.go], writes the header and registers the
    file; the schemes it then executes the writer on are those of the
    package-level [design.Design], not those of its argument, and it panics
    on a nil dereference when [design.Design] is nil.  [FormatCode] is
    called only when the execution succeeded. *)
Theorem generateSecurity_log api s :
  let f := filepath_Join (outDir (gen s)) "security.go" in
  let call := WriterOp SecurityWriter f in
  let header :=
    WriteHeader (APIDefinition_Context api +:+ ": Application Security")
      (target (gen s))
      [ SimpleImport "net/http"; SimpleImport "errors";
        SimpleImport "golang.org/x/net/context";
        SimpleImport "github.com/goadesign/goa" ] in
  let r := generateSecurity api s in
  match APIDefinition.SecuritySchemes api with
  | [] => r = (Returned None, s)
  | _ :: _ =>
      ∃ r0 evs,
        trace r.2 = trace s ++ (call New, r0) :: evs ∧
        match r0 with
        | Some e =>
            r.1 = Panicked e ∧ evs = [] ∧
            genfiles (gen r.2) = genfiles (gen s)
        | None =>
            ∃ rh tail,
              evs = (call header, rh) :: tail ∧
              genfiles (gen r.2) = genfiles (gen s) ++ [f] ∧
              match design_Design s with
              | None =>
                  r.1 = Panicked
                          "invalid memory address or nil pointer dereference" ∧
                  tail = []
              | Some dsg =>
                  let execute :=
                    call (ExecuteSecurity (APIDefinition.SecuritySchemes dsg))
                  in
                  ∃ re,
                    match re with
                    | Some e =>
                        r.1 = Returned (Some e) ∧ tail = [(execute, Some e)]
                    | None =>
                        ∃ rf, r.1 = Returned rf ∧
                              tail = [(execute, None); (call FormatCode, rf)]
                    end
              end
        end
  end.
Proof.
  intros f call header r. subst f call header r.
  unfold generateSecurity.
  destruct (APIDefinition.SecuritySchemes api) as [|sch schemes]; [done|].
  cbn [length]. rewrite decide_False by done.
  unfold_m. run_call.
  destruct r as [e|]; unfold_m.
  { exists (Some e), []. by split_and!. }
  run_call. exists None.
  destruct (design_Design s) as [dsg|] eqn:Hd; unfold_m.
  - run_call. destruct r0 as [e|]; unfold_m.
    + eexists. split; [cbn [trace]; rewrite <- !app_assoc; reflexivity|].
      eexists r, _. split_and!; [reflexivity|done|]. by exists (Some e).
    + run_call.
      eexists. split; [cbn [trace]; rewrite <- !app_assoc; reflexivity|].
      eexists r, _. split_and!; [reflexivity|done|].
      exists None. by exists r0.
  - eexists. split; [cbn [trace]; rewrite <- !app_assoc; reflexivity|].
    by eexists r, _.
Qed.

(** Why a step panicked: the constructor of a writer returned the error
    [e], and that call is the last of the log; or a security scheme is
    declared and [design.Design] is nil. *)
Definition panic_cause (design : option APIDefinition.t)
    (api : APIDefinition.t) (e : error) (tr : list (Call * option error))
  : Prop :=
  (∃ tr0 w f, tr = tr0 ++ [(WriterOp w f New, Some e)]) ∨
  (design = None ∧ APIDefinition.SecuritySchemes api ≠ [] ∧
   e = "invalid memory address or nil pointer dereference").

Ltac panicked_at_constructor :=
  intros [= <- <-]; left; eexists _, _, _; reflexivity.

Lemma step_panicked g api st s1 e s' :
  st ∈ generation_steps g (design_Design s1) api →
  step_run st s1 = (Panicked e, s') →
  panic_cause (design_Design s1) api e (trace s').
Proof.
  unfold generation_steps. intros Hin.
  repeat (apply elem_of_cons in Hin as [->|Hin]); cbn [step_run].
  - unfold generateContexts. unfold_m. run_call.
    destruct r as [e0|]; unfold_m; [panicked_at_constructor|].
    run_call.
    rewrite (iterate_nested
               (λ res a, call_writer ContextsWriter
                           (filepath_Join (outDir (gen s1)) "contexts.go")
                           (ExecuteContext
                              (ctxData (target (gen s1)) api res a)))).
    run_units. destruct ru as [e1|]; unfold_m; [done|]. by run_call.
  - unfold generateControllers. unfold_m. run_call.
    destruct r as [e0|]; unfold_m; [panicked_at_constructor|].
    destruct (BuildEncoders (APIDefinition.Produces api) true)
      as [encoders [e1|]]; unfold_m; [done|].
    destruct (BuildEncoders (APIDefinition.Consumes api) false)
      as [decoders [e1|]]; unfold_m; [done|].
    run_call. run_call. run_call.
    destruct r1 as [e1|]; unfold_m; [done|]. by run_call.
  - unfold generateSecurity.
    destruct (APIDefinition.SecuritySchemes api) as [|sch schemes] eqn:Hsch;
      [done|].
    cbn [length]. rewrite decide_False by done.
    unfold_m. run_call.
    destruct r as [e0|]; unfold_m; [panicked_at_constructor|].
    run_call. destruct (design_Design s1) as [dsg|]; unfold_m.
    + run_call. destruct r0 as [e1|]; unfold_m; [done|]. by run_call.
    + intros [= <- <-]. right. by rewrite Hsch.
  - unfold generateHrefs. unfold_m. run_call.
    destruct r as [e0|]; unfold_m; [panicked_at_constructor|].
    run_call. run_units.
    destruct ru as [e1|]; unfold_m; [done|]. by run_call.
  - destruct (generateMediaTypes_log api s1) as (evs & Htr & Hlog & _).
    intros Hrun. rewrite Hrun in Htr, Hlog. cbn [fst snd] in *.
    inversion Hlog; subst. left. by eexists _, _, _.
  - unfold generateUserTypes. unfold_m. run_call.
    destruct r as [e0|]; unfold_m; [panicked_at_constructor|].
    run_call. run_units.
    destruct ru as [e1|]; unfold_m; [done|]. by run_call.
  - destruct (notest g); [done|].
    unfold generateResourceTest.
    by destruct (resource_test api (gen s1) (fs s1)) as [[fs' files] r].
  - by apply elem_of_nil in Hin.
Qed.
End Units.

(** * Panics, cleanup and repeated runs *)

Section Recovery.
Context `{D : Design, R : GoRuntime, P : Platform}.

(** A sequence of steps panics only when one of its steps does. *)
Lemma sequence_panicked s0 steps s e s' :
  Forall (step_sound s0) steps → same_config s0 s →
  sequence steps s = (Panicked e, s') →
  ∃ st s1, st ∈ steps ∧ same_config s0 s1 ∧ step_run st s1 = (Panicked e, s').
Proof.
  intros Hsound. revert s.
  induction Hsound as [|st steps Hst _ IH]; intros s Hs Hseq; [done|].
  rewrite sequence_cons in Hseq.
  destruct (step_run st s) as [[[e1|]|e1] s1] eqn:Hrun; [done| |].
  - destruct Hst as [_ Hpost].
    destruct (Hpost s Hs) as (_ & _ & Hcfg & _). rewrite Hrun in Hcfg.
    destruct (IH s1 (same_config_trans _ _ _ Hs Hcfg) Hseq)
      as (st' & s2 & Hin & Hs2 & Hrun2).
    exists st', s2. split_and!; [by apply list_elem_of_further|done|done].
  - injection Hseq as <- <-. exists st, s.
    split_and!; [apply list_elem_of_here|done|done].
Qed.

(** [Cleanup] on a generator that has registered something. *)
Lemma Cleanup_removes s :
  genfiles (gen s) ≠ [] →
  genfiles (gen (Cleanup s).2) = [] ∧
  absent (outDir (gen s)) (fs (Cleanup s).2).
Proof.
  intros Hne. rewrite Cleanup_run by done. cbn.
  split; [done|apply os_RemoveAll_absent].
Qed.

Lemma Cleanup_same_config s : same_config s (Cleanup s).2.
Proof.
  destruct (genfiles (gen s)) as [|f files] eqn:Hg.
  - rewrite Cleanup_noop by done. apply same_config_refl.
  - rewrite Cleanup_run by (by rewrite Hg). by repeat split.
Qed.

(** [Generate] keeps the configuration of the generator and
    [design.Design]. *)
Lemma Generate_same_config api s : same_config s (Generate api s).2.
Proof.
  destruct api as [api|]; [|apply same_config_refl].
  rewrite Generate_unfold.
  destruct (os_MkdirAll _ _) as [fs1 [e1|]]; cbn [run_deferred snd].
  - eapply same_config_trans; [|apply Cleanup_same_config].
    by repeat split.
  - destruct (generation_run api s fs1) as (evs & l & Hcfg & _).
    destruct (sequence _ _) as [[[files [e|]]|e] s2];
      cbn [run_deferred fst snd] in *; try done.
    eapply same_config_trans; [exact Hcfg|apply Cleanup_same_config].
Qed.

(** X6.  With collaborators that return normally, [Generate] panics only
    for one of two reasons: the constructor of a writer failed, and then the panic carries its error and that call is
    the last of the log; or the API declares a security scheme while
    [design.Design] is nil.  The deferred cleanup does nothing on a panic:
    after the output directory was created the log holds only calls of the
    writers and of the test generator, no [os.RemoveAll], so what was
    written stays on disk; [genfiles] still starts with the output
    directory, so that a call of [Cleanup] afterwards removes it. *)
Theorem Generate_panic api s e s' :
  Generate (Some api) s = (Panicked e, s') →
  let d := outDir (gen s) in
  ((∃ tr w f, trace s' = tr ++ [(WriterOp w f New, Some e)]) ∨
   (design_Design s = None ∧ APIDefinition.SecuritySchemes api ≠ [] ∧
    e = "invalid memory address or nil pointer dereference")) ∧
  (∃ evs,
     trace s'
     = trace s ++ [ (utils_Catch, None); (RemoveAll d, None);
                    (MkdirAll d, None) ] ++ evs ∧
     Forall (λ ev, is_Some (artifact_of ev.1)) evs) ∧
  (∃ l, genfiles (gen s') = d :: l) ∧
  genfiles (gen (Cleanup s').2) = [] ∧
  absent d (fs (Cleanup s').2).
Proof.
  intros Hgen d. subst d. rewrite Generate_unfold in Hgen.
  destruct (os_MkdirAll _ _) as [fs1 [e1|]] eqn:Hmk; [done|].
  set (s1 := started s fs1 None [outDir (gen s)]) in *.
  pose proof (generation_steps_sound s1 api) as Hsound.
  change (gen s1) with
    (mkGenerator (outDir (gen s)) (target (gen s)) (notest (gen s))
                 [outDir (gen s)]) in Hsound.
  change (design_Design s1) with (design_Design s) in Hsound.
  destruct (generation_run api s fs1)
    as (evs & l & Hcfg & Htr & Hg & (Hall & _) & _).
  fold s1 in Hcfg, Htr, Hg.
  destruct (sequence _ s1) as [[[files [e0|]]|e0] s2] eqn:Hseq;
    cbn [run_deferred] in Hgen; try done.
  injection Hgen as -> ->. cbn [fst snd] in *.
  split_and!.
  - destruct (sequence_panicked s1 _ s1 e s' Hsound (same_config_refl _) Hseq)
      as (st & s3 & Hin & (_ & _ & _ & Hd) & Hrun).
    change (design_Design s1) with (design_Design s) in Hd.
    rewrite <- Hd in Hin |- *.
    exact (step_panicked _ _ _ _ _ _ Hin Hrun).
  - exists evs. split; [by rewrite Htr; cbn; rewrite <- app_assoc|].
    eapply Forall_impl; [exact Hall|]. intros ev (st & Hin & Hc).
    rewrite Forall_forall in Hsound.
    destruct (Hsound st Hin) as [Hart _]. destruct (Hart _ Hc) as [-> _].
    by eexists.
  - by exists l.
  - apply Cleanup_removes. by rewrite Hg.
  - destruct Hcfg as (<- & _). apply Cleanup_removes. by rewrite Hg.
Qed.

(** X7.  When the output directory cannot be created, [Generate] returns a
    nil file list and the error of [os.MkdirAll], and calls no writer.  The
    earlier content of the directory is lost all the same: the file system
    left is the one before the run without the output directory and what
    was below it; every other path is untouched. *)
Theorem Generate_MkdirAll_failure api s e :
  let d := outDir (gen s) in
  MkdirAll_error d (os_RemoveAll d (fs s)) = Some e →
  let r := Generate (Some api) s in
  r.1 = Returned ([], Some e) ∧
  fs r.2 = os_RemoveAll d (fs s) ∧
  absent d (fs r.2) ∧
  (∀ p, under d p = false → fs r.2 !! p = fs s !! p) ∧
  genfiles (gen r.2) = [] ∧
  trace r.2
  = trace s ++ [ (utils_Catch, None); (RemoveAll d, None);
                 (MkdirAll d, Some e) ]
      ++ (if decide (genfiles (gen s) = []) then []
          else [(RemoveAll d, None)]).
Proof.
  intros d Hmk r. subst d r. rewrite Generate_unfold.
  unfold os_MkdirAll. rewrite Hmk. cbn [run_deferred fst snd].
  assert (fs (Cleanup (started s (os_RemoveAll (outDir (gen s)) (fs s))
                         (Some e) (genfiles (gen s)))).2
          = os_RemoveAll (outDir (gen s)) (fs s) ∧
          genfiles (gen (Cleanup (started s
                           (os_RemoveAll (outDir (gen s)) (fs s))
                           (Some e) (genfiles (gen s)))).2) = [] ∧
          trace (Cleanup (started s (os_RemoveAll (outDir (gen s)) (fs s))
                            (Some e) (genfiles (gen s)))).2
          = trace s ++ [ (utils_Catch, None);
                         (RemoveAll (outDir (gen s)), None);
                         (MkdirAll (outDir (gen s)), Some e) ]
              ++ (if decide (genfiles (gen s) = []) then []
                  else [(RemoveAll (outDir (gen s)), None)]))
    as (Hfs & Hg & Htr).
  { destruct (decide (genfiles (gen s) = [])) as [Hnil|Hne].
    - rewrite Cleanup_noop by done. cbn. by rewrite ?app_nil_r.
    - rewrite Cleanup_run by done. cbn. split_and!; [|done|].
      + apply map_eq. intros p.
        destruct (under (outDir (gen s)) p) eqn:Hp.
        * by rewrite !os_RemoveAll_absent.
        * by rewrite os_RemoveAll_other.
      + by rewrite <- app_assoc. }
  rewrite Hfs, Hg, Htr. split_and!; try done.
  - apply os_RemoveAll_absent.
  - intros p Hp. by apply os_RemoveAll_other.
Qed.

(** X8.  [Cleanup] removes the output directory exactly when [genfiles] is
    not empty, and empties [genfiles].  With an empty [genfiles] it makes no
    call and leaves an existing directory alone.  It never touches a path
    outside the output directory nor the configuration of the generator,
    and a second [Cleanup] in a row does nothing. *)
Theorem Cleanup_spec s :
  let d := outDir (gen s) in
  let r := Cleanup s in
  r.1 = Returned () ∧
  same_config s r.2 ∧
  genfiles (gen r.2) = [] ∧
  (genfiles (gen s) = [] → r.2 = s) ∧
  (genfiles (gen s) ≠ [] →
     fs r.2 = os_RemoveAll d (fs s) ∧
     trace r.2 = trace s ++ [(RemoveAll d, None)] ∧
     absent d (fs r.2)) ∧
  (∀ p, under d p = false → fs r.2 !! p = fs s !! p) ∧
  Cleanup r.2 = (Returned (), r.2).
Proof.
  intros d r. subst d r.
  destruct (genfiles (gen s)) as [|f files] eqn:Hg.
  - rewrite Cleanup_noop by done. cbn [fst snd].
    split_and!; try done; by apply Cleanup_noop.
  - rewrite Cleanup_run by (by rewrite Hg). cbn [fst snd gen fs trace genfiles].
    split_and!; try done.
    + intros _. split_and!; [done|done|apply os_RemoveAll_absent].
    + intros p Hp. by apply os_RemoveAll_other.
Qed.

(** X9.  A [Cleanup] after a successful run (the interrupt handler firing
    once generation is over) deletes the output: the directory and every
    file the generator itself listed are gone, only files listed by the
    test generator may remain, and [genfiles] is empty. *)
Theorem Generate_then_Cleanup api s files s' :
  Generate (Some api) s = (Returned (files, None), s') →
  outDir (gen s) ≠ "" →
  let d := outDir (gen s) in
  let s'' := (Cleanup s').2 in
  genfiles (gen s'') = [] ∧
  absent d (fs s'') ∧
  ∃ tests,
    files = generated_files d api tests ∧
    ∀ f, f ∈ generated_files d api [] → fs s'' !! f = None.
Proof.
  intros Hgen Hd d s''. subst d s''.
  pose proof (Generate_same_config (Some api) s) as (Hdir & _).
  rewrite Hgen in Hdir. cbn [snd] in Hdir.
  rewrite Generate_unfold in Hgen.
  destruct (os_MkdirAll _ _) as [fs1 [e1|]] eqn:Hmk; [done|].
  destruct (sequence _ _) as [[[files0 [e|]]|e] s2] eqn:Hseq;
    cbn [run_deferred] in Hgen; try done.
  injection Hgen as -> ->.
  destruct (generation_files _ _ _ _ _ Hseq) as (tests & -> & _ & Hg).
  assert (genfiles (gen s') ≠ []) as Hne by (by rewrite Hg).
  destruct (Cleanup_removes s' Hne) as [Hnil Habs]. rewrite Hdir in Habs.
  split_and!; [done|done|]. exists tests. split; [done|].
  intros f Hf. apply Habs. unfold generated_files in Hf.
  rewrite app_nil_r in Hf.
  apply elem_of_app in Hf as [Hf|Hf];
    [|apply elem_of_app in Hf as [Hf|Hf];
      [destruct (security_enabled api)|]];
    repeat (apply elem_of_cons in Hf as [->|Hf];
            [first [by apply under_self | by apply under_Join]|]);
    by apply elem_of_nil in Hf.
Qed.

(** X10.  A generator can be run again: [Generate] keeps its output
    directory, target package and test switch, and it overwrites [genfiles]
    when it starts.  Whatever an earlier run on the same generator did
    (success, error or panic, on any API), the file list of a successful new
    run is the one of that run alone: the output directory followed by the
    files of its own artifacts. *)
Theorem Generate_again api0 api s files s' :
  Generate (Some api) (Generate api0 s).2 = (Returned (files, None), s') →
  same_config s s' ∧
  ∃ tests,
    files = generated_files (outDir (gen s)) api tests ∧
    (notest (gen s) = true → tests = []) ∧
    genfiles (gen s') = files.
Proof.
  intros Hgen.
  pose proof (Generate_same_config api0 s) as Hcfg0.
  pose proof (Generate_same_config (Some api) (Generate api0 s).2) as Hcfg.
  rewrite Hgen in Hcfg. cbn [snd] in Hcfg.
  split; [by eapply same_config_trans|].
  destruct Hcfg0 as (Hd & _ & Hn & _).
  rewrite Generate_unfold in Hgen.
  destruct (os_MkdirAll _ _) as [fs1 [e1|]] eqn:Hmk; [done|].
  destruct (sequence _ _) as [[[files0 [e|]]|e] s2] eqn:Hseq;
    cbn [run_deferred] in Hgen; try done.
  injection Hgen as -> ->.
  destruct (generation_files _ _ _ _ _ Hseq) as (tests & -> & Ht & Hg).
  exists tests. rewrite <- Hd, <- Hn. by split_and!.
Qed.
End Recovery.

(** * More on the data handed to the writers *)

Section MoreData.
Context `{D : Design, R : GoRuntime, P : Platform}.

Lemma foldl_snoc_fmap {A B} (f : A → B) (l : list A) (acc : list B) :
  foldl (λ acc a, acc ++ [f a]) acc l = acc ++ (f <$> l).
Proof.
  revert acc. induction l as [|x l IH]; intros acc; cbn.
  - by rewrite app_nil_r.
  - by rewrite IH, <- app_assoc.
Qed.

(** The resources for which a controller is generated: those with an
    action or a file server. *)
Definition has_controller (r : ResourceDefinition.t) : bool :=
  bool_decide (IterateActions_order r ≠ [] ∨
               ResourceDefinition.FileServers r ≠ []).

(** The controller of a resource: one entry per action, in the order of the
    iteration. *)
Definition controller_of (api : APIDefinition.t)
    (encoders decoders : list EncoderTemplateData.t)
    (r : ResourceDefinition.t) : ControllerTemplateData.t :=
  {| ControllerTemplateData.API := api;
     ControllerTemplateData.Resource := Goify (ResourceDefinition.Name r) true;
     ControllerTemplateData.PreflightPaths := PreflightPaths r;
     ControllerTemplateData.FileServers := ResourceDefinition.FileServers r;
     ControllerTemplateData.Actions :=
       controllerAction r <$> IterateActions_order r;
     ControllerTemplateData.Encoders := encoders;
     ControllerTemplateData.Decoders := decoders;
     ControllerTemplateData.Origins := AllOrigins r |}.

Lemma controllersData_foldl api encoders decoders
    (l : list ResourceDefinition.t) (acc : list ControllerTemplateData.t) :
  foldl (λ acc r,
           let actions :=
             foldl (λ actions a, actions ++ [controllerAction r a])
                   [] (IterateActions_order r) in
           if decide (0 < length actions ∨
                      0 < length (ResourceDefinition.FileServers r))%nat
           then acc ++
             [ {| ControllerTemplateData.API := api;
                  ControllerTemplateData.Resource :=
                    Goify (ResourceDefinition.Name r) true;
                  ControllerTemplateData.PreflightPaths := PreflightPaths r;
                  ControllerTemplateData.FileServers :=
                    ResourceDefinition.FileServers r;
                  ControllerTemplateData.Actions := actions;
                  ControllerTemplateData.Encoders := encoders;
                  ControllerTemplateData.Decoders := decoders;
                  ControllerTemplateData.Origins := AllOrigins r |} ]
           else acc)
        acc l
  = acc ++ (controller_of api encoders decoders
              <$> filter (λ r, has_controller r = true) l).
Proof.
  revert acc. induction l as [|r l IH]; intros acc.
  { cbn. by rewrite app_nil_r. }
  cbn [foldl]. rewrite IH. clear IH. cbn zeta.
  rewrite (foldl_snoc_fmap (controllerAction r) _ []). cbn [app].
  rewrite length_fmap.
  destruct (decide (0 < length (IterateActions_order r) ∨
                    0 < length (ResourceDefinition.FileServers r))%nat)
    as [Hyes|Hno].
  - rewrite filter_cons_True.
    + cbn. by rewrite <- app_assoc.
    + unfold has_controller. apply bool_decide_eq_true.
      destruct Hyes as [Hyes|Hyes]; [left|right]; intros Hnil;
        rewrite Hnil in Hyes; cbn in Hyes; lia.
  - rewrite filter_cons_False; [done|].
    unfold has_controller. rewrite bool_decide_eq_true.
    intros [Hne|Hne]; apply Hno; [left|right];
      match goal with
      | H : ?l ≠ [] |- _ => destruct l; [done|cbn; lia]
      end.
Qed.

Lemma controllersData_filter api encoders decoders :
  controllersData api encoders decoders
  = controller_of api encoders decoders
      <$> filter (λ r, has_controller r = true) (IterateResources_order api).
Proof. apply (controllersData_foldl api encoders decoders _ []). Qed.

(** X11.  The data the controllers writer is executed on holds one
    controller per resource that has an action or a file server, in the
    order of the resource iteration; a resource with neither is left out, so
    no controller is empty.  The actions of a controller are the actions of
    its resource, in the order of the action iteration.  This is the data of
    every execution of the controllers writer in a run of [Generate]. *)
Theorem controllers_per_resource api s :
  let encoders := (BuildEncoders (APIDefinition.Produces api) true).1 in
  let decoders := (BuildEncoders (APIDefinition.Consumes api) false).1 in
  let data := controllersData api encoders decoders in
  data
  = controller_of api encoders decoders
      <$> filter (λ r, has_controller r = true) (IterateResources_order api) ∧
  (∀ c, c ∈ data →
        ControllerTemplateData.Actions c ≠ [] ∨
        ControllerTemplateData.FileServers c ≠ []) ∧
  (∀ c, c ∈ data →
        ∃ r, r ∈ IterateResources_order api ∧
             ControllerTemplateData.Resource c
             = Goify (ResourceDefinition.Name r) true ∧
             ControllerAction.Name <$> ControllerTemplateData.Actions c
             = (λ a, Goify (ActionDefinition.Name a) true)
                 <$> IterateActions_order r) ∧
  ∃ evs,
    trace (Generate (Some api) s).2 = trace s ++ evs ∧
    ∀ w f data' r, (WriterOp w f (ExecuteControllers data'), r) ∈ evs →
                   data' = data.
Proof.
  intros encoders decoders data. subst data.
  rewrite controllersData_filter. split_and!.
  - done.
  - intros c Hc. apply list_elem_of_fmap in Hc as (r & -> & Hr).
    apply list_elem_of_filter in Hr as [Hr _].
    unfold has_controller in Hr. apply bool_decide_eq_true in Hr.
    cbn. destruct Hr as [Hr|Hr]; [left|by right].
    intros Hnil. apply fmap_nil_inv in Hnil. done.
  - intros c Hc. apply list_elem_of_fmap in Hc as (r & -> & Hr).
    apply list_elem_of_filter in Hr as [_ Hr].
    exists r. split_and!; [done|done|].
    cbn. by rewrite <- list_fmap_compose.
  - destruct (Generate_calls api s) as (evs & Htr & Hall).
    exists evs. split; [done|]. intros w f data' r Hin.
    rewrite Forall_forall in Hall.
    destruct (Hall _ Hin) as [Hos|Hstep]; cbn [fst] in *.
    { by destruct (os_calls_not_writer _ _ _ _ Hos). }
    apply step_calls_ExecuteControllers in Hstep as ->.
    apply controllersData_filter.
Qed.

(** X12.  The imports written to [controllers.go] hold a package twice
    exactly when an encoder or decoder of the API lives in one of the four
    packages other than goa that the generator always imports: only the goa
    package itself is filtered out of the package paths of the encoders. *)
Theorem controllersImports_NoDup encoders decoders :
  NoDup (ImportSpec.Path <$> controllersImports encoders decoders)
  ↔ ∀ data, data ∈ encoders ++ decoders →
            EncoderTemplateData.PackagePath data
            ∉ [ "net/http"; "fmt"; "golang.org/x/net/context";
                "github.com/goadesign/goa/cors" ].
Proof.
  assert (∀ l : list string, ImportSpec.Path ∘ SimpleImport <$> l = l) as Hid
    by (intros l; exact (list_fmap_id l)).
  rewrite controllersImports_eq, fmap_app, <- list_fmap_compose, Hid.
  cbn [fmap list_fmap ImportSpec.Path SimpleImport].
  rewrite NoDup_app. split.
  - intros (_ & Hdisj & _) data Hdata Hin.
    assert (EncoderTemplateData.PackagePath data
            ∈ packagePaths encoders decoders) as Hpp.
    { apply elem_of_packagePaths. split; [|by exists data].
      intros Heq. rewrite Heq in Hin.
      repeat (apply elem_of_cons in Hin as [Hin|Hin]; [done|]).
      by apply elem_of_nil in Hin. }
    refine (Hdisj _ _ Hpp).
    repeat (apply elem_of_cons in Hin as [->|Hin];
            [repeat first [apply list_elem_of_here
                          |apply list_elem_of_further]|]).
    by apply elem_of_nil in Hin.
  - intros Hnone. split_and!.
    + repeat (apply NoDup_cons; split;
              [intros Hin;
               repeat (apply elem_of_cons in Hin as [Hin|Hin]; [done|]);
               by apply elem_of_nil in Hin|]).
      apply NoDup_nil_2.
    + intros p Hp Hpp.
      apply elem_of_packagePaths in Hpp as (Hgoa & data & Hdata & <-).
      apply (Hnone data Hdata).
      repeat (apply elem_of_cons in Hp as [Hp|Hp];
              [first [done
                     |rewrite Hp;
                      repeat first [apply list_elem_of_here
                                   |apply list_elem_of_further]]|]).
      by apply elem_of_nil in Hp.
    + apply packagePaths_NoDup.
Qed.

Lemma nil_if_empty_Some x att :
  nil_if_empty x = Some att
  ↔ x = Some att ∧ ToObject (AttributeDefinition_Type att) ≠ [].
Proof.
  unfold nil_if_empty. destruct x as [att0|]; [|by split; [|intros []]].
  destruct (decide (length (ToObject (AttributeDefinition_Type att0)) = 0%nat))
    as [Hz|Hnz].
  - split; [done|]. intros [[= ->] Hne].
    by destruct (ToObject (AttributeDefinition_Type att)).
  - split.
    + intros [= ->]. split; [done|]. intros Hnil. by rewrite Hnil in Hnz.
    + by intros [[= ->] _].
Qed.

(** X13.  The parameters of a context are the parameters of the action
    (its own and those it inherits), and its headers the headers of the
    resource merged with those of the action, but neither is ever an object
    without fields: such an attribute is replaced by nil.  So in a run of
    [Generate] no context is executed with a parameter or header attribute
    whose object is empty. *)
Theorem context_objects_not_empty api s :
  (∀ tgt r a att,
     ContextTemplateData.Params (ctxData tgt api r a) = Some att
     ↔ AllParams a = Some att ∧
       ToObject (AttributeDefinition_Type att) ≠ []) ∧
  (∀ tgt r a att,
     ContextTemplateData.Headers (ctxData tgt api r a) = Some att
     ↔ Merge (ResourceDefinition.Headers r) (ActionDefinition.Headers a)
       = Some att ∧
       ToObject (AttributeDefinition_Type att) ≠ []) ∧
  ∃ evs,
    trace (Generate (Some api) s).2 = trace s ++ evs ∧
    ∀ w f data r att,
      (WriterOp w f (ExecuteContext data), r) ∈ evs →
      ContextTemplateData.Params data = Some att ∨
      ContextTemplateData.Headers data = Some att →
      ToObject (AttributeDefinition_Type att) ≠ [].
Proof.
  split_and!.
  - intros tgt r a att. cbn. apply nil_if_empty_Some.
  - intros tgt r a att. cbn. apply nil_if_empty_Some.
  - destruct (Generate_calls api s) as (evs & Htr & Hall).
    exists evs. split; [done|]. intros w f data r att Hin Hatt.
    rewrite Forall_forall in Hall.
    destruct (Hall _ Hin) as [Hos|Hstep]; cbn [fst] in *.
    { by destruct (os_calls_not_writer _ _ _ _ Hos). }
    apply step_calls_ExecuteContext in Hstep as (res & a & _ & _ & ->).
    cbn in Hatt. destruct Hatt as [Hatt|Hatt];
      by apply nil_if_empty_Some in Hatt as [_ Hne].
Qed.

(** X14.  When every action names as its parent the resource it belongs
    to, the context types the controllers refer to are exactly the contexts
    the contexts writer is executed on, in the same order: the identifier
    of each is derived in the same way by both steps, and a resource left
    out of the controllers has no action, hence no context. *)
Theorem controllers_use_generated_contexts tgt api encoders decoders :
  (∀ r a, r ∈ IterateResources_order api → a ∈ IterateActions_order r →
          ActionDefinition.Parent_Name a = ResourceDefinition.Name r) →
  (c ← controllersData api encoders decoders;
   ControllerAction.Context <$> ControllerTemplateData.Actions c)
  = (λ p, ContextTemplateData.Name (ctxData tgt api p.1 p.2))
      <$> nested IterateActions_order (IterateResources_order api).
Proof.
  rewrite controllersData_filter.
  induction (IterateResources_order api) as [|r l IH]; intros Hparent; [done|].
  assert (ControllerAction.Context
            <$> (controllerAction r <$> IterateActions_order r)
          = (λ p, ContextTemplateData.Name (ctxData tgt api p.1 p.2))
              <$> (pair r <$> IterateActions_order r)) as Hr.
  { rewrite <- !list_fmap_compose. apply list_fmap_ext. intros i a Ha.
    apply list_elem_of_lookup_2 in Ha. cbn. unfold ctxName.
    rewrite (Hparent r a) by (done || apply list_elem_of_here).
    apply string_app_assoc. }
  assert ((c ← controller_of api encoders decoders
                 <$> filter (λ r, has_controller r = true) l;
           ControllerAction.Context <$> ControllerTemplateData.Actions c)
          = (λ p, ContextTemplateData.Name (ctxData tgt api p.1 p.2))
              <$> nested IterateActions_order l) as Hl.
  { apply IH. intros r' a Hr' Ha. apply Hparent; [|done].
    by apply list_elem_of_further. }
  unfold nested in *. cbn [mbind list_bind]. rewrite fmap_app, <- Hr, <- Hl.
  destruct (has_controller r) eqn:Hhas.
  - by rewrite filter_cons_True by done.
  - rewrite filter_cons_False by (by rewrite Hhas).
    unfold has_controller in Hhas. apply bool_decide_eq_false in Hhas.
    destruct (IterateActions_order r); [done|].
    exfalso. apply Hhas. by left.
Qed.

(** The name of the file each writer is opened on. *)
Definition writer_file (w : Writer) : string :=
  match w with
  | ContextsWriter => "contexts.go"
  | ControllersWriter => "controllers.go"
  | SecurityWriter => "security.go"
  | ResourcesWriter => "hrefs.go"
  | MediaTypesWriter => "media_types.go"
  | UserTypesWriter => "user_types.go"
  end.

Lemma step_calls_file g design api w f wc :
  step_calls_of g design api (WriterOp w f wc) →
  f = filepath_Join (outDir g) (writer_file w).
Proof.
  unfold step_calls_of, contexts_calls, controllers_calls, security_calls,
    hrefs_calls, mediaTypes_calls, userTypes_calls, resourceTest_calls,
    writer_calls.
  intros H.
  repeat destruct H as [H|H];
    try (destruct H as (wc' & H & _); by injection H as -> -> ->).
  discriminate H.
Qed.

(** X15.  Every call [Generate] makes to a writer is on the file of that
    writer in the output directory: the generator writes nowhere else.  When
    it returns no error, the file of every writer that is enabled (the
    security writer only when a security scheme is declared) is in the list
    it returns, and [FormatCode] was called on that file and returned no
    error: no listed file is left unformatted or half written. *)
Theorem Generate_writes_listed_files api s :
  let d := outDir (gen s) in
  let r := Generate (Some api) s in
  ∃ evs,
    trace r.2 = trace s ++ evs ∧
    (∀ w f wc res,
       (WriterOp w f wc, res) ∈ evs → f = filepath_Join d (writer_file w)) ∧
    ∀ files,
      r.1 = Returned (files, None) →
      ∀ w, artifact_enabled (gen s) api (artifact_of_writer w) = true →
           filepath_Join d (writer_file w) ∈ files ∧
           (WriterOp w (filepath_Join d (writer_file w)) FormatCode, None)
           ∈ evs.
Proof.
  intros d r. subst d r.
  destruct (Generate_calls api s) as (evs & Htr & Hall).
  exists evs. rewrite Forall_forall in Hall.
  assert (∀ w f wc res,
            (WriterOp w f wc, res) ∈ evs →
            f = filepath_Join (outDir (gen s)) (writer_file w)) as Hfile.
  { intros w f wc res Hin.
    destruct (Hall _ Hin) as [Hos|Hstep]; cbn [fst] in *.
    - by destruct (os_calls_not_writer _ _ _ _ Hos).
    - by eapply step_calls_file. }
  split_and!; [done|done|].
  intros files Hret w Hen.
  rewrite Generate_unfold in Htr, Hret.
  destruct (os_MkdirAll _ _) as [fs1 [e1|]] eqn:Hmk; [done|].
  destruct (generation_run api s fs1)
    as (evs1 & l & _ & Htr1 & _ & _ & Hok & _).
  destruct (sequence _ _) as [[[files0 [e|]]|e] s2] eqn:Hseq;
    cbn [run_deferred fst snd] in *; try done.
  injection Hret as ->.
  destruct (generation_files _ _ _ _ _ Hseq) as (tests & -> & _ & _).
  destruct (Hok _ eq_refl) as (_ & _ & Hdone).
  split.
  - unfold generated_files.
    destruct w; cbn [writer_file]; cbn in Hen; rewrite ?Hen;
      rewrite !elem_of_app, !elem_of_cons; tauto.
  - destruct (generation_steps_artifact (gen s) (design_Design s) api
                (artifact_of_writer w)) as (st & Hin & Hart).
    rewrite Forall_forall in Hdone.
    destruct (Hdone st Hin) as (c & Hc & Hk & Hfinal).
    { rewrite (generation_steps_enabled _ _ _ _ Hin). by rewrite Hart. }
    assert ((c, None) ∈ evs) as Hc'.
    { rewrite Htr1 in Htr. cbn [started trace] in Htr.
      rewrite <- app_assoc in Htr. apply app_inv_head in Htr as <-.
      apply elem_of_app. by right. }
    rewrite Hart in Hk.
    destruct c as [| | |w' f' wc|api']; try done; cbn in Hk.
    + assert (w' = w) as -> by (destruct w', w; by simplify_eq).
      rewrite (Hfile _ _ _ _ Hc') in Hc'. by destruct wc.
    + by destruct w.
Qed.
End MoreData.

(** * Further runs on sample designs *)

Module Scenario.
(** A platform on which the output directory cannot be created. *)
Definition readonly_platform : Platform := {|
  MkdirAll_error d fs := Some ("mkdir " +:+ d +:+ ": permission denied");
  writer_call w f c fs := (Sample.write f c fs, None);
  resource_test api g fs := (fs, [], None) |}.

(** The dummy API with a security scheme declared. *)
Definition secured_api : APIDefinition.t := {|
  APIDefinition.Name := "test api";
  APIDefinition.Title := "dummy API with no resource";
  APIDefinition.Description := "I told you it's dummy";
  APIDefinition.Resources := ∅;
  APIDefinition.MediaTypes := ∅;
  APIDefinition.Types := ∅;
  APIDefinition.SecuritySchemes :=
    [SecuritySchemeDefinition.mk "password" "basic" []];
  APIDefinition.Produces := [];
  APIDefinition.Consumes := [] |}.

(** The security schemes the security writer was executed on. *)
Definition executed_schemes (evs : list (Call * option error))
  : list (list SecuritySchemeDefinition.t) :=
  omap (λ ev, match ev.1 with
              | WriterOp SecurityWriter _ (ExecuteSecurity schemes) =>
                  Some schemes
              | _ => None
              end) evs.
End Scenario.

(** Called on an API with a scheme while [design.Design] is the dummy API,
    [generateSecurity] executes the writer on the schemes of the dummy API:
    none. *)
Example sample_security_of_global_design :
  Scenario.executed_schemes
    (trace (@generateSecurity Sample.design Sample.platform
              Scenario.secured_api (Sample.initial Sample.dummy_api)).2)
  = [[]].
Proof. vm_compute. reflexivity. Qed.

(** With [design.Design] nil the step panics once the file is registered. *)
Example sample_security_nil_design :
  let s := mkState (mkGenerator "out/app" "app" false ["out/app"]) ∅ None [] in
  let r := @generateSecurity Sample.design Sample.platform
             Scenario.secured_api s in
  r.1 = Panicked "invalid memory address or nil pointer dereference" ∧
  genfiles (gen r.2) = ["out/app"; "out/app/security.go"].
Proof. vm_compute. by split. Qed.

(** The panic of the sample run whose controllers file cannot be created. *)
Lemma Generate_panic_witness :
  let s := Sample.initial Sample.widget_api in
  let r := @Generate Sample.design Sample.runtime Sample.broken_platform
             (Some Sample.widget_api) s in
  let e := "controllers.go: cannot create" in
  let d := outDir (gen s) in
  r = (Panicked e, r.2) ∧
  (((∃ tr w f, trace r.2 = tr ++ [(WriterOp w f New, Some e)]) ∨
    (design_Design s = None ∧
     APIDefinition.SecuritySchemes Sample.widget_api ≠ [] ∧
     e = "invalid memory address or nil pointer dereference")) ∧
   (∃ evs,
      trace r.2
      = trace s ++ [ (utils_Catch, None); (RemoveAll d, None);
                     (MkdirAll d, None) ] ++ evs ∧
      Forall (λ ev, is_Some (artifact_of ev.1)) evs) ∧
   (∃ l, genfiles (gen r.2) = d :: l) ∧
   genfiles (gen (Cleanup r.2).2) = [] ∧
   absent d (fs (Cleanup r.2).2)).
Proof.
  intros s r e d.
  assert (r = (Panicked e, r.2)) as Hrun by (vm_compute; reflexivity).
  split; [exact Hrun|].
  exact (@Generate_panic Sample.design Sample.runtime Sample.broken_platform
           Sample.widget_api s e r.2 Hrun).
Defined.

(** A run on the platform where the directory cannot be created. *)
Lemma Generate_MkdirAll_failure_witness :
  let api := Sample.widget_api in
  let s := Sample.initial api in
  let e := "mkdir out/app: permission denied" in
  let d := outDir (gen s) in
  let r := @Generate Sample.design Sample.runtime Scenario.readonly_platform
             (Some api) s in
  @MkdirAll_error Scenario.readonly_platform d (os_RemoveAll d (fs s))
  = Some e ∧
  (r.1 = Returned ([], Some e) ∧
   fs r.2 = os_RemoveAll d (fs s) ∧
   absent d (fs r.2) ∧
   (∀ p, under d p = false → fs r.2 !! p = fs s !! p) ∧
   genfiles (gen r.2) = [] ∧
   trace r.2
   = trace s ++ [ (utils_Catch, None); (RemoveAll d, None);
                  (MkdirAll d, Some e) ]
       ++ (if decide (genfiles (gen s) = []) then []
           else [(RemoveAll d, None)])).
Proof.
  intros api s e d r.
  assert (@MkdirAll_error Scenario.readonly_platform d (os_RemoveAll d (fs s))
          = Some e) as Hmk by reflexivity.
  split; [exact Hmk|].
  exact (@Generate_MkdirAll_failure Sample.design Sample.runtime
           Scenario.readonly_platform api s e Hmk).
Defined.

(** A successful sample run followed by [Cleanup]. *)
Lemma Generate_then_Cleanup_witness :
  let api := Sample.widget_api in
  let s := Sample.initial api in
  let r := @Generate Sample.design Sample.runtime Sample.platform
             (Some api) s in
  let files :=
    [ "out/app"; "out/app/contexts.go"; "out/app/controllers.go";
      "out/app/hrefs.go"; "out/app/media_types.go"; "out/app/user_types.go" ] in
  let d := outDir (gen s) in
  let s'' := (Cleanup r.2).2 in
  r = (Returned (files, None), r.2) ∧
  outDir (gen s) ≠ "" ∧
  (genfiles (gen s'') = [] ∧
   absent d (fs s'') ∧
   ∃ tests,
     files = generated_files d api tests ∧
     ∀ f, f ∈ generated_files d api [] → fs s'' !! f = None).
Proof.
  intros api s r files d s''.
  assert (r = (Returned (files, None), r.2)) as Hrun
    by (vm_compute; reflexivity).
  assert (outDir (gen s) ≠ "") as Hd by discriminate.
  split; [exact Hrun|]. split; [exact Hd|].
  exact (@Generate_then_Cleanup Sample.design Sample.runtime Sample.platform
           api s files r.2 Hrun Hd).
Defined.

(** The sample API generated after a run on the dummy API, with the same
    generator. *)
Lemma Generate_again_witness :
  let s := Sample.initial Sample.widget_api in
  let s1 := (@Generate Sample.design Sample.runtime Sample.platform
               (Some Sample.dummy_api) s).2 in
  let r := @Generate Sample.design Sample.runtime Sample.platform
             (Some Sample.widget_api) s1 in
  let files :=
    [ "out/app"; "out/app/contexts.go"; "out/app/controllers.go";
      "out/app/hrefs.go"; "out/app/media_types.go"; "out/app/user_types.go" ] in
  r = (Returned (files, None), r.2) ∧
  (same_config s r.2 ∧
   ∃ tests,
     files = generated_files (outDir (gen s)) Sample.widget_api tests ∧
     (notest (gen s) = true → tests = []) ∧
     genfiles (gen r.2) = files).
Proof.
  intros s s1 r files.
  assert (r = (Returned (files, None), r.2)) as Hrun
    by (vm_compute; reflexivity).
  split; [exact Hrun|].
  exact (@Generate_again Sample.design Sample.runtime Sample.platform
           (Some Sample.dummy_api) Sample.widget_api s files r.2 Hrun).
Defined.

(** The only action of the sample API names its resource as parent. *)
Lemma controllers_use_generated_contexts_witness :
  let api := Sample.widget_api in
  let encoders := (@BuildEncoders Sample.design
                     (APIDefinition.Produces api) true).1 in
  let decoders := (@BuildEncoders Sample.design
                     (APIDefinition.Consumes api) false).1 in
  (∀ r a, r ∈ @IterateResources_order Sample.design api →
          a ∈ @IterateActions_order Sample.design r →
          ActionDefinition.Parent_Name a = ResourceDefinition.Name r) ∧
  (c ← @controllersData Sample.design api encoders decoders;
   ControllerAction.Context <$> ControllerTemplateData.Actions c)
  = (λ p, ContextTemplateData.Name
            (@ctxData Sample.design Sample.runtime "app" api p.1 p.2))
      <$> nested (@IterateActions_order Sample.design)
            (@IterateResources_order Sample.design api).
Proof.
  intros api encoders decoders.
  assert (∀ r a, r ∈ @IterateResources_order Sample.design api →
                 a ∈ @IterateActions_order Sample.design r →
                 ActionDefinition.Parent_Name a = ResourceDefinition.Name r)
    as Hparent.
  { intros r a Hr Ha.
    assert (@IterateResources_order Sample.design api
            = [Sample.widget_resource]) as Hres by (vm_compute; reflexivity).
    rewrite Hres in Hr. apply list_elem_of_singleton in Hr as ->.
    assert (@IterateActions_order Sample.design Sample.widget_resource
            = [Sample.get_action]) as Hact by (vm_compute; reflexivity).
    rewrite Hact in Ha. by apply list_elem_of_singleton in Ha as ->. }
  split; [exact Hparent|].
  exact (@controllers_use_generated_contexts Sample.design Sample.runtime
           "app" api encoders decoders Hparent).
Defined.
